(** * gmail-job-tracker: the ledger passes of [gmail_sync.py] and [job_tracker.py]

    The two scripts keep a ledger of job applications in a pandas DataFrame.
    [gmail_sync.py] loads it ([load_jobs_df]) and reconciles it with the
    confirmation and rejection e-mails of a mailbox ([scan_confirmations],
    [scan_rejections]); [job_tracker.py] fills the [summary], [skills] and
    [salary] columns from a remote summarizer ([process_jobs]).

    The development is a shallow embedding: a DataFrame is a list of column
    names and a list of rows, a row is a finite map from column names to
    cells, a cell is a [str] or the float NaN pandas reads for an empty CSV
    field.  The mailbox, the CSV parser, [email.utils.parsedate_to_datetime]
    and the summarization call are collaborators outside the repository; they
    enter as the data they hand over (the fetched messages, the frame
    [read_csv] returned) or as section variables. *)

From Stdlib Require Import String Ascii ZArith List DecimalString Lia.
From stdpp Require Import base option list gmap strings fin_maps.

Open Scope string_scope.
Open Scope list_scope.
Open Scope stdpp_scope.

(* ===================================================================== *)
(** ** Python values, exceptions and string built-ins                     *)
(* ===================================================================== *)

Module Py.

(** The exceptions the modelled code can meet. *)
Inductive exn :=
| KeyError (key : string)      (* df["c"] on a frame without column c *)
| TypeError                    (* str.join on a non-str element *)
| ValueError                   (* an unparseable Date header *)
| RemoteError.                 (* anything the remote call raised *)

Inductive Result (A : Type) :=
| Ok (a : A)
| Raise (e : exn).
Arguments Ok {A} a.
Arguments Raise {A} e.

Definition bind {A B} (m : Result A) (k : A -> Result B) : Result B :=
  match m with
  | Ok a => k a
  | Raise e => Raise e
  end.

(** A JSON scalar as Python sees it after parsing. *)
Inductive scalar :=
| SStr (s : string)
| SInt (z : Z)
| SBool (b : bool)
| SNone.

(** [str.isspace] on the ASCII range: TAB, LF, VT, FF, CR, FS, GS, RS, US
    and the space. *)
Definition isspace (c : ascii) : bool :=
  let n := nat_of_ascii c in
  (((9 <=? n) && (n <=? 13)) || ((28 <=? n) && (n <=? 32)))%nat.

Fixpoint lstrip (s : string) : string :=
  match s with
  | EmptyString => EmptyString
  | String c s' => if isspace c then lstrip s' else s
  end.

Fixpoint rstrip (s : string) : string :=
  match s with
  | EmptyString => EmptyString
  | String c s' =>
      match rstrip s' with
      | EmptyString => if isspace c then EmptyString else String c EmptyString
      | t => String c t
      end
  end.

(** [s.strip()] *)
Definition strip (s : string) : string := lstrip (rstrip s).

(** Truth value of a [str]: non-empty. *)
Definition truthy (s : string) : bool :=
  match s with
  | EmptyString => false
  | String _ _ => true
  end.

Definition lower_char (c : ascii) : ascii :=
  let n := nat_of_ascii c in
  if ((65 <=? n) && (n <=? 90))%nat then ascii_of_nat (n + 32) else c.

(** [s.lower()] on ASCII text. *)
Fixpoint lower (s : string) : string :=
  match s with
  | EmptyString => EmptyString
  | String c s' => String (lower_char c) (lower s')
  end.

(** [str(v)] for a scalar. *)
Definition str (v : scalar) : string :=
  match v with
  | SStr s => s
  | SInt z => NilZero.string_of_int (Z.to_int z)
  | SBool true => "True"
  | SBool false => "False"
  | SNone => "None"
  end.

(** The [str] elements of a list, or [TypeError] at the first element
    that is not a [str]: what [sep.join(l)] demands of [l]. *)
Fixpoint strs (l : list scalar) : Result (list string) :=
  match l with
  | [] => Ok []
  | SStr s :: rest => bind (strs rest) (fun ss => Ok (s :: ss))
  | _ :: _ => Raise TypeError
  end.

(** [sep.join(l)] *)
Definition join (sep : string) (l : list scalar) : Result string :=
  bind (strs l) (fun ss => Ok (String.concat sep ss)).

Fixpoint zeros (n : nat) : string :=
  match n with
  | O => EmptyString
  | S n' => String "0" (zeros n')
  end.

(** ["%0<width>d" % n] for a natural number. *)
Definition fmt_d (width n : nat) : string :=
  let digits := NilZero.string_of_uint (Nat.to_uint n) in
  zeros (width - String.length digits) +:+ digits.

End Py.

(** [Result] is a monad; stdpp's [x ← m; k] sequences calls that may raise. *)
#[export] Instance Result_ret : MRet Py.Result := fun A a => Py.Ok a.
#[export] Instance Result_bind : MBind Py.Result := fun A B k m => Py.bind m k.

(* ===================================================================== *)
(** ** The part of pandas the scripts use                                 *)
(* ===================================================================== *)

Module Pandas.

(** A cell of a text column: a [str], or NaN where the CSV field was
    empty. *)
Inductive cell :=
| CStr (s : string)
| CNaN.

#[export] Instance cell_eq_dec : EqDecision cell.
Proof. solve_decision. Defined.

Record DataFrame := mkDataFrame {
  columns : list string;
  rows : list (gmap string cell)
}.

(** Every row carries exactly the frame's columns. *)
Definition wf (df : DataFrame) : Prop :=
  Forall (fun r : gmap string cell => dom r = list_to_set (columns df)) (rows df).

(** [pd.DataFrame(columns=cols)] *)
Definition empty_frame (cols : list string) : DataFrame :=
  mkDataFrame cols [].

(** [pd.DataFrame([row])] for a dict literal [row]: one row, the columns
    in the order of the keys. *)
Definition from_record (row : list (string * cell)) : DataFrame :=
  mkDataFrame (map fst row) [list_to_map row].

(** The cell of a row under a column. *)
Definition at_col (col : string) (r : gmap string cell) : cell :=
  default CNaN (r !! col).

(** [df[col]]: the column as a series, [KeyError] without it. *)
Definition getitem (df : DataFrame) (col : string) : Py.Result (list cell) :=
  if bool_decide (col ∈ columns df) then Py.Ok (map (at_col col) (rows df))
  else Py.Raise (Py.KeyError col).

(** [df[col] = v] for a scalar [v]. *)
Definition setitem (col : string) (v : cell) (df : DataFrame) : DataFrame :=
  mkDataFrame
    (if bool_decide (col ∈ columns df) then columns df else columns df ++ [col])
    (map (insert col v) (rows df)).

(** One element of [series == s] for a [str] [s]: NaN equals nothing. *)
Definition eq_str (s : string) (c : cell) : bool :=
  match c with
  | CStr t => String.eqb t s
  | CNaN => false
  end.

(** [mask.any()] *)
Definition any (mask : list bool) : bool := existsb id mask.

(** One element of [series.fillna(v)]. *)
Definition fillna (v : string) (c : cell) : cell :=
  match c with
  | CNaN => CStr v
  | CStr s => CStr s
  end.

(** One element of [series.astype(str)]. *)
Definition astype_str (c : cell) : string :=
  match c with
  | CStr s => s
  | CNaN => "nan"
  end.

(** [df.loc[mask, col] = v] for a scalar [v]: the masked rows take [v];
    a column that did not exist is created, NaN on the other rows. *)
Definition loc_set (mask : list bool) (col : string) (v : cell)
    (df : DataFrame) : DataFrame :=
  mkDataFrame
    (if bool_decide (col ∈ columns df) then columns df else columns df ++ [col])
    (zip_with
       (fun (b : bool) (r : gmap string cell) =>
          if b then <[col := v]> r
          else match r !! col with
               | Some _ => r
               | None => <[col := CNaN]> r
               end)
       mask (rows df)).

(** [df.loc[mask, col] = f(df.loc[mask, col])] for an element-wise [f]:
    the right-hand side is read from the masked rows and assigned back
    under the same labels; reading raises [KeyError] without the
    column. *)
Definition loc_update (mask : list bool) (col : string) (f : cell -> cell)
    (df : DataFrame) : Py.Result DataFrame :=
  if bool_decide (col ∈ columns df) then
    Py.Ok (mkDataFrame (columns df)
             (zip_with
                (fun (b : bool) (r : gmap string cell) =>
                   if b then <[col := f (at_col col r)]> r else r)
                mask (rows df)))
  else Py.Raise (Py.KeyError col).

(** A row seen under a wider column list: NaN under the columns it
    lacks. *)
Definition align (cols : list string) (r : gmap string cell) : gmap string cell :=
  r ∪ gset_to_gmap CNaN (list_to_set cols).

(** [pd.concat([df1, df2], ignore_index=True)]: the rows of [df1], then
    those of [df2], over the union of the columns. *)
Definition concat (df1 df2 : DataFrame) : DataFrame :=
  let cols := columns df1 ++ filter (fun c => c ∉ columns df1) (columns df2) in
  mkDataFrame cols (map (align cols) (rows df1 ++ rows df2)).

End Pandas.

Import Pandas.

(* ===================================================================== *)
(** ** gmail_sync.py                                                      *)
(* ===================================================================== *)

(** A fetched Gmail message: the dict [messages().get(...).execute()]
    returns.  Every key the script reads through [.get(key, default)] may be
    absent. *)
Record Header := mkHeader {
  h_name : option string;
  h_value : option string
}.

Record Payload := mkPayload {
  pl_headers : option (list Header)
}.

Record Message := mkMessage {
  msg_payload : option Payload;
  msg_snippet : option string
}.

(** [msg.get("payload", {}).get("headers", [])] *)
Definition msg_headers (msg : Message) : list Header :=
  default [] (pl_headers (default (mkPayload None) (msg_payload msg))).

Fixpoint get_header (headers : list Header) (name : string) : string :=
  match headers with
  | [] => ""
  | h :: rest =>
      if String.eqb (Py.lower (default "" (h_name h))) (Py.lower name)
      then default "" (h_value h)
      else get_header rest name
  end.

(** What [parsedate_to_datetime] returns: the wall-clock fields as written
    in the header and the UTC offset in minutes ([None] for a naive
    datetime). *)
Record datetime := mkDatetime {
  dt_year : nat;
  dt_month : nat;
  dt_day : nat;
  dt_hour : nat;
  dt_minute : nat;
  dt_second : nat;
  dt_utcoffset : option Z
}.

Record date := mkDate {
  d_year : nat;
  d_month : nat;
  d_day : nat
}.

(** [dt.date()]: the fields of the datetime itself, no conversion. *)
Definition dt_date (dt : datetime) : date :=
  mkDate (dt_year dt) (dt_month dt) (dt_day dt).

(** [d.isoformat()], that is ["%04d-%02d-%02d"]. *)
Definition isoformat (d : date) : string :=
  Py.fmt_d 4 (d_year d) +:+ "-" +:+ Py.fmt_d 2 (d_month d) +:+ "-" +:+ Py.fmt_d 2 (d_day d).

(** The nine columns of the ledger, in the order [load_jobs_df] lists
    them. *)
Definition expected_columns : list string :=
  ["company"; "role_title"; "job_link"; "applied_date"; "status";
   "job_text"; "summary"; "skills"; "salary"].

(** [load_jobs_df]: [file] is [None] when [jobs.csv] does not exist and
    otherwise the frame [pd.read_csv] returned for it. *)
Definition load_jobs_df (file : option DataFrame) : DataFrame :=
  let df :=
    match file with
    | Some csv => csv
    | None => empty_frame expected_columns
    end in
  fold_left
    (fun (df : DataFrame) (col : string) =>
       if bool_decide (col ∉ columns df) then setitem col (CStr "") df else df)
    expected_columns df.

(** The literal ["\n[Rejection snippet] "]. *)
Definition rejection_separator : string :=
  String (ascii_of_nat 10) "[Rejection snippet] ".

(** The fields of the event a fetched message stands for, as both scans
    read them. *)
Definition subject_of (msg : Message) : string :=
  get_header (msg_headers msg) "Subject".
Definition sender_of (msg : Message) : string :=
  get_header (msg_headers msg) "From".
Definition date_header_of (msg : Message) : string :=
  get_header (msg_headers msg) "Date".
Definition snippet_of (msg : Message) : string :=
  default "" (msg_snippet msg).

Section GmailSync.

(** [email.utils.parsedate_to_datetime]; [Raise] when it raises. *)
Variable parsedate_to_datetime : string -> Py.Result datetime.

Definition parse_date (date_str : string) : string :=
  match parsedate_to_datetime date_str with
  | Py.Ok dt => isoformat (dt_date dt)
  | Py.Raise _ => ""
  end.

(** The body of the loop of [scan_confirmations] for one fetched
    message. *)
Definition confirmation_step (df : DataFrame) (msg : Message) : Py.Result DataFrame :=
  let headers := msg_headers msg in
  let subject := get_header headers "Subject" in
  let from_header := get_header headers "From" in
  let date_header := get_header headers "Date" in
  let snippet := default "" (msg_snippet msg) in
  let applied_date := parse_date date_header in
  let company := from_header in
  let role_title := subject in
  let job_text := snippet in
  titles ← getitem df "role_title";
  dates ← getitem df "applied_date";
  let dup_mask :=
    zip_with andb (map (eq_str role_title) titles) (map (eq_str applied_date) dates) in
  if any dup_mask then mret df
  else
    let row :=
      [("company", CStr company);
       ("role_title", CStr role_title);
       ("job_link", CStr "");
       ("applied_date", CStr applied_date);
       ("status", CStr "Applied");
       ("job_text", CStr job_text);
       ("summary", CStr "");
       ("skills", CStr "");
       ("salary", CStr "")] in
    mret (concat df (from_record row)).

(** [scan_confirmations]: [messages] are the messages the Gmail query
    returned, fetched in order. *)
Fixpoint scan_confirmations (messages : list Message) (df : DataFrame)
    : Py.Result DataFrame :=
  match messages with
  | [] => mret df
  | msg :: rest =>
      df' ← confirmation_step df msg;
      scan_confirmations rest df'
  end.

(** The body of the loop of [scan_rejections] for one fetched message. *)
Definition rejection_step (df : DataFrame) (msg : Message) : Py.Result DataFrame :=
  let headers := msg_headers msg in
  let subject := get_header headers "Subject" in
  let from_header := get_header headers "From" in
  let date_header := get_header headers "Date" in
  let snippet := default "" (msg_snippet msg) in
  let rejection_date := parse_date date_header in
  titles ← getitem df "role_title";
  let mask := map (eq_str subject) titles in
  if any mask then
    let df1 := loc_set mask "status" (CStr "Rejected") df in
    loc_update mask "job_text"
      (fun c => CStr (astype_str (fillna "" c) +:+ rejection_separator +:+ snippet))
      df1
  else
    let row :=
      [("company", CStr from_header);
       ("role_title", CStr subject);
       ("job_link", CStr "");
       ("applied_date", CStr rejection_date);
       ("status", CStr "Rejected");
       ("job_text", CStr snippet);
       ("summary", CStr "");
       ("skills", CStr "");
       ("salary", CStr "")] in
    mret (concat df (from_record row)).

Fixpoint scan_rejections (messages : list Message) (df : DataFrame)
    : Py.Result DataFrame :=
  match messages with
  | [] => mret df
  | msg :: rest =>
      df' ← rejection_step df msg;
      scan_rejections rest df'
  end.

End GmailSync.

(* ===================================================================== *)
(** ** job_tracker.py                                                     *)
(* ===================================================================== *)

(** The value under ["skills"] in the parsed answer: a list, or anything
    else. *)
Inductive skills_value :=
| SkList (l : list Py.scalar)
| SkScalar (v : Py.scalar).

(** The dict [summarize_job] returns; each of the three keys is read with
    [result.get(key, default)] and may be absent. *)
Record Parsed := mkParsed {
  p_summary : option string;
  p_skills : option skills_value;
  p_salary : option string
}.

(** The test that skips a row: [isinstance(row.get("summary", ""), str) and
    row["summary"].strip()]. *)
Definition has_summary (row : gmap string cell) : bool :=
  match default (CStr "") (row !! "summary") with
  | CStr s => Py.truthy (Py.strip s)
  | CNaN => false
  end.

(** The head of [process_jobs]: each of the three enrichment columns is
    created, empty, when the frame read does not have it. *)
Definition ensure_enrichment_columns (df : DataFrame) : DataFrame :=
  let df := if bool_decide ("summary" ∉ columns df) then setitem "summary" (CStr "") df else df in
  let df := if bool_decide ("skills" ∉ columns df) then setitem "skills" (CStr "") df else df in
  let df := if bool_decide ("salary" ∉ columns df) then setitem "salary" (CStr "") df else df in
  df.

(** The statements of a [try] block run against the row [df.at[idx, _]]
    addresses: each yields the row as written so far and either a value or
    the exception that ended the block. *)
Definition Try (A : Type) : Type :=
  gmap string cell -> gmap string cell * Py.Result A.

Definition try_ret {A} (a : A) : Try A := fun r => (r, Py.Ok a).

Definition try_bind {A B} (m : Try A) (k : A -> Try B) : Try B :=
  fun r =>
    match m r with
    | (r', Py.Ok a) => k a r'
    | (r', Py.Raise e) => (r', Py.Raise e)
    end.

(** A call that may raise and writes nothing. *)
Definition try_call {A} (c : Py.Result A) : Try A := fun r => (r, c).

(** [df.at[idx, col] = v] *)
Definition at_set (col : string) (v : cell) : Try unit :=
  fun r => (<[col := v]> r, Py.Ok tt).

#[export] Instance Try_ret : MRet Try := fun A a => try_ret a.
#[export] Instance Try_bind : MBind Try := fun A B k m => try_bind m k.

Section JobTracker.

(** [summarize_job(client, row)] for the row with index [idx]: the answer
    of the remote model, or [Raise] when the call or the extraction of
    the parsed answer raises.  The index stands for the call: the remote
    service may answer two equal rows differently. *)
Variable summarize_job : nat -> gmap string cell -> Py.Result Parsed.

(** The body of the [try] block for row [idx], whose content when the
    loop reaches it is [row]. *)
Definition try_body (idx : nat) (row : gmap string cell) : Try unit :=
  result ← try_call (summarize_job idx row);
  at_set "summary" (CStr (default "" (p_summary result)));;
  match default (SkList []) (p_skills result) with
  | SkList skills_list =>
      joined ← try_call (Py.join ", " skills_list);
      at_set "skills" (CStr joined)
  | SkScalar v =>
      at_set "skills" (CStr (Py.str v))
  end;;
  at_set "salary" (CStr (default "" (p_salary result))).

(** The [for idx, row in df.iterrows()] loop over the rows from index
    [idx] on, with the counter [updated] as it stands; returns the rows
    as left in the frame and the final counter. *)
Fixpoint iterrows_loop (idx : nat) (pending : list (gmap string cell))
    (updated : nat) : list (gmap string cell) * nat :=
  match pending with
  | [] => ([], updated)
  | row :: rest =>
      if has_summary row then
        let '(rest', n) := iterrows_loop (S idx) rest updated in
        (row :: rest', n)
      else
        let '(row', outcome) := try_body idx row row in
        let updated' :=
          match outcome with
          | Py.Ok _ => S updated
          | Py.Raise _ => updated
          end in
        let '(rest', n) := iterrows_loop (S idx) rest updated' in
        (row' :: rest', n)
  end.

(** [process_jobs] between [pd.read_csv] and [df.to_csv]: [df] is the
    frame read; the result is the frame written and the count printed. *)
Definition process_jobs (df : DataFrame) : DataFrame * nat :=
  let df := ensure_enrichment_columns df in
  let '(rows', updated) := iterrows_loop 0 (rows df) 0 in
  (mkDataFrame (columns df) rows', updated).

End JobTracker.

(* ===================================================================== *)
(** ** Vocabulary of the statements                                       *)
(* ===================================================================== *)

(** The frame has the nine ledger columns. *)
Definition schema_complete (df : DataFrame) : Prop :=
  Forall (fun c => c ∈ columns df) expected_columns.

(** A ledger as the scans receive it from [load_jobs_df]. *)
Definition ledger (df : DataFrame) : Prop :=
  wf df /\ schema_complete df.

(** The text a cell holds; an empty field holds none. *)
Definition cell_text (c : cell) : string :=
  match c with
  | CStr s => s
  | CNaN => ""
  end.

(** The de-duplication key of a row. *)
Definition dedup_key (r : gmap string cell) : cell * cell :=
  (at_col "role_title" r, at_col "applied_date" r).

(** The de-duplication key of an event with the given title and date. *)
Definition key_of (title date : string) : cell * cell :=
  (CStr title, CStr date).

(** The row carries the given title and date as strings. *)
Definition keyed (title date : string) (r : gmap string cell) : Prop :=
  r !! "role_title" = Some (CStr title) /\ r !! "applied_date" = Some (CStr date).

(** The row carries the given title. *)
Definition titled (title : string) (r : gmap string cell) : Prop :=
  r !! "role_title" = Some (CStr title).

(** The dict literal both scans build for a new row. *)
Definition new_record (company role_title applied_date status job_text : string)
    : list (string * cell) :=
  [("company", CStr company);
   ("role_title", CStr role_title);
   ("job_link", CStr "");
   ("applied_date", CStr applied_date);
   ("status", CStr status);
   ("job_text", CStr job_text);
   ("summary", CStr "");
   ("skills", CStr "");
   ("salary", CStr "")].

(** What a rejection does to one row of a frame in which its subject is
    found. *)
Definition reject_row (subject snippet : string) (r : gmap string cell)
    : gmap string cell :=
  if eq_str subject (at_col "role_title" r) then
    <["job_text" := CStr (cell_text (at_col "job_text" r)
                            +:+ rejection_separator +:+ snippet)]>
      (<["status" := CStr "Rejected"]> r)
  else r.

(** The row a scan appends, seen in a ledger: the nine fields of the
    dict, NaN under any further column of the frame. *)
Definition appended (df : DataFrame)
    (company title date status text : string) : gmap string cell :=
  align (columns df) (list_to_map (new_record company title date status text)).


Definition is_str (v : Py.scalar) : Prop :=
  match v with
  | Py.SStr _ => True
  | _ => False
  end.

(** The answer respects the interface of the summarizer: a skills list
    holds strings. *)
Definition skills_typed (p : Parsed) : Prop :=
  match p_skills p with
  | Some (SkList l) => Forall is_str l
  | _ => True
  end.

(** The strings among the elements of a list. *)
Definition str_elements (l : list Py.scalar) : list string :=
  omap (fun v => match v with Py.SStr s => Some s | _ => None end) l.

(** The text stored under "skills" for a typed answer: the strings of a
    list joined by ", ", the string form of a scalar, nothing for an
    answer without the key. *)
Definition skills_text (p : Parsed) : string :=
  match default (SkList []) (p_skills p) with
  | SkList l => String.concat ", " (str_elements l)
  | SkScalar v => Py.str v
  end.

(** A row with the three enrichment fields of a typed answer written. *)
Definition enriched (p : Parsed) (row : gmap string cell) : gmap string cell :=
  <["salary" := CStr (default "" (p_salary p))]>
    (<["skills" := CStr (skills_text p)]>
       (<["summary" := CStr (default "" (p_summary p))]> row)).



#[export] Instance keyed_dec title date r : Decision (keyed title date r).
Proof. unfold keyed. apply _. Defined.

#[export] Instance titled_dec title r : Decision (titled title r).
Proof. unfold titled. apply _. Defined.

(* ===================================================================== *)
(** ** Sample data                                                        *)
(* ===================================================================== *)

Module Sample.

(** A date parser that knows one header and rejects every other. *)
Definition parser (s : string) : Py.Result datetime :=
  if String.eqb s "Wed, 10 Jan 2024 23:30:00 -0800"
  then Py.Ok (mkDatetime 2024 1 10 23 30 0 (Some (-480)%Z))
  else Py.Raise Py.ValueError.

Definition confirmation : Message :=
  mkMessage
    (Some (mkPayload (Some
       [mkHeader (Some "From") (Some "jobs@example.com");
        mkHeader (Some "Subject") (Some "Software Engineer");
        mkHeader (Some "Date") (Some "Wed, 10 Jan 2024 23:30:00 -0800")])))
    (Some "Thanks for applying").

(** A confirmation without a Date header. *)
Definition undated : Message :=
  mkMessage
    (Some (mkPayload (Some
       [mkHeader (Some "From") (Some "jobs@example.com");
        mkHeader (Some "subject") (Some "Data Analyst")])))
    (Some "We received your application").

Definition rejection : Message :=
  mkMessage
    (Some (mkPayload (Some
       [mkHeader (Some "From") (Some "jobs@example.com");
        mkHeader (Some "Subject") (Some "Software Engineer")])))
    (Some "not moving forward").

(** A rejection whose subject no row carries; it has no headers the
    script could read a sender or a date from. *)
Definition stray_rejection : Message :=
  mkMessage
    (Some (mkPayload (Some
       [mkHeader (Some "SUBJECT") (Some "Product Manager");
        mkHeader None (Some "dangling")])))
    None.

(** A batch in which the first confirmation comes twice. *)
Definition batch : list Message :=
  [confirmation; undated; confirmation].

(** A ledger of two rows: a dated and an undated application. *)
Definition two_rows : DataFrame :=
  mkDataFrame expected_columns
    [list_to_map (new_record "jobs@example.com" "Software Engineer"
                    "2024-01-10" "Applied" "Thanks for applying");
     list_to_map (new_record "jobs@example.com" "Data Analyst"
                    "" "Applied" "We received your application")].

(** [two_rows] as pandas reads it back from the file it was saved to: a
    field written empty comes back as NaN. *)
Definition reloaded : DataFrame :=
  mkDataFrame expected_columns
    (map (fmap (fun c => match c with
                         | CStr EmptyString => CNaN
                         | _ => c
                         end))
       (rows two_rows)).

(** The frame of a ledger file written before the salary column
    existed; the job link was left empty. *)
Definition old_file : DataFrame :=
  mkDataFrame
    ["company"; "role_title"; "job_link"; "applied_date"; "status";
     "job_text"; "summary"; "skills"]
    [list_to_map
       [("company", CStr "ACME"); ("role_title", CStr "Software Engineer");
        ("job_link", CNaN); ("applied_date", CStr "2024-01-10");
        ("status", CStr "Applied"); ("job_text", CStr "Thanks for applying");
        ("summary", CStr "Builds backend services."); ("skills", CStr "Go, SQL")]].

(** A summarizer that answers the first row, is unreachable for the
    second and answers every later row with a list that holds a number. *)
Definition summarizer (idx : nat) (row : gmap string cell) : Py.Result Parsed :=
  match idx with
  | 0 => Py.Ok (mkParsed (Some "Builds backend services.")
                  (Some (SkList [Py.SStr "Go"; Py.SStr "SQL"; Py.SStr "APIs"]))
                  (Some "unknown"))
  | 1 => Py.Raise Py.RemoteError
  | _ => Py.Ok (mkParsed (Some "Analyses sales data.")
                  (Some (SkList [Py.SStr "SQL"; Py.SInt 3]))
                  (Some "$30/hr"))
  end.

(** The same summarizer with every answer within the interface. *)
Definition typed_summarizer (idx : nat) (row : gmap string cell) : Py.Result Parsed :=
  match idx with
  | 0 => Py.Ok (mkParsed (Some "Builds backend services.")
                  (Some (SkList [Py.SStr "Go"; Py.SStr "SQL"; Py.SStr "APIs"]))
                  (Some "unknown"))
  | 1 => Py.Raise Py.RemoteError
  | _ => Py.Ok (mkParsed (Some "Analyses sales data.")
                  (Some (SkScalar (Py.SInt 3)))
                  None)
  end.

Definition first_row : gmap string cell :=
  list_to_map (new_record "jobs@example.com" "Software Engineer"
                 "2024-01-10" "Applied" "Thanks for applying").

Definition second_row : gmap string cell :=
  list_to_map (new_record "jobs@example.com" "Data Analyst"
                 "" "Applied" "We received your application").

(** A row that has a summary. *)
Definition summarized_row : gmap string cell :=
  <["summary" := CStr " Leads the product roadmap. "]>
    (list_to_map (new_record "hr@example.org" "Product Manager"
                    "2024-02-01" "Applied" "Application received")).

(** A ledger of three rows: two to be enriched and one that has a
    summary. *)
Definition three_rows : DataFrame :=
  mkDataFrame expected_columns [first_row; second_row; summarized_row].

End Sample.

(* ===================================================================== *)
(** ** The rest of gmail_sync.py and job_tracker.py                       *)
(* ===================================================================== *)

(** One page of [users().messages().list(...)]: the dict may lack the
    ["messages"] key; an entry is the metadata dict of a message, of which
    the scans read the id. *)
Record MessageMeta := mkMessageMeta {
  meta_id : string
}.

Record ListResponse := mkListResponse {
  resp_messages : option (list MessageMeta)
}.

(** The [while request is not None] loop of [gmail_search] over the pages
    still to come, with [messages] as accumulated so far. *)
Fixpoint gmail_search_loop (pages : list ListResponse) (messages : list MessageMeta)
    : list MessageMeta :=
  match pages with
  | [] => messages
  | response :: next =>
      let msgs := default [] (resp_messages response) in
      gmail_search_loop next (messages ++ msgs)
  end.

(** [gmail_search]: [first] is the response to the initial request and
    [next] the responses to the requests [list_next] hands out until it
    returns [None]. *)
Definition gmail_search (first : ListResponse) (next : list ListResponse)
    : list MessageMeta :=
  gmail_search_loop (first :: next) [].

(** A header answers to a name: the comparison [get_header] makes. *)
Definition answers_to (name : string) (h : Header) : Prop :=
  Py.lower (default "" (h_name h)) = Py.lower name.

(** The elements of [xs] that are neither in [seen] nor earlier in [xs],
    in the order of their first occurrence. *)
Fixpoint first_seen {A} `{EqDecision A} (seen xs : list A) : list A :=
  match xs with
  | [] => []
  | x :: rest =>
      if decide (x ∈ seen) then first_seen seen rest
      else x :: first_seen (x :: seen) rest
  end.

(** The de-duplication key of a confirmation event. *)
Definition event_key (parsedate_to_datetime : string -> Py.Result datetime)
    (msg : Message) : cell * cell :=
  key_of (subject_of msg) (parse_date parsedate_to_datetime (date_header_of msg)).

(** What a rejection pass may do to a row: every field but status and
    job_text is kept, the status is kept or becomes "Rejected", the
    job_text is kept or becomes its text with something appended. *)
Definition evolves (r r' : gmap string cell) : Prop :=
  (forall c : string, c <> "status" -> c <> "job_text" -> r' !! c = r !! c) /\
  (r' !! "status" = r !! "status" \/ r' !! "status" = Some (CStr "Rejected")) /\
  (r' !! "job_text" = r !! "job_text" \/
   exists suffix : string,
     r' !! "job_text" = Some (CStr (cell_text (at_col "job_text" r) +:+ suffix))).

(** Some row carries the title and every row that carries it is
    "Rejected". *)
Definition all_rejected (title : string) (df : DataFrame) : Prop :=
  Exists (titled title) (rows df) /\
  Forall (fun r : gmap string cell =>
            titled title r -> r !! "status" = Some (CStr "Rejected"))
    (rows df).

(** The amount of job text in a frame: a unit for each row and one for
    each character of its job_text. *)
Definition text_weight (df : DataFrame) : nat :=
  foldr (fun (r : gmap string cell) (n : nat) =>
           S (String.length (cell_text (at_col "job_text" r))) + n)
    0 (rows df).

(** The three columns [process_jobs] writes. *)
Definition enrichment_columns : list string :=
  ["summary"; "skills"; "salary"].

(** The command-line entry point of [gmail_sync.py]. *)
Module GmailSyncCli.

(** The [mode] argument. *)
Inductive Mode :=
| ScanConfirmations
| ScanRejections
| ScanAll.

Section Main.

Variable parsedate_to_datetime : string -> Py.Result datetime.

(** [main]: [file] is what [load_jobs_df] finds, [confirmations] and
    [rejections] what the two Gmail queries return (fetched); the result
    is the frame handed to [save_jobs_df]. *)
Definition main (mode : Mode) (file : option DataFrame)
    (confirmations rejections : list Message) : Py.Result DataFrame :=
  let df := load_jobs_df file in
  df ← match mode with
       | ScanConfirmations | ScanAll =>
           scan_confirmations parsedate_to_datetime confirmations df
       | ScanRejections => mret df
       end;
  df ← match mode with
       | ScanRejections | ScanAll =>
           scan_rejections parsedate_to_datetime rejections df
       | ScanConfirmations => mret df
       end;
  mret df.

End Main.

End GmailSyncCli.

(** More sample data. *)
Module Sample2.

(** Headers in which the subject comes twice, the first time without a
    value. *)
Definition doubled_subject : list Header :=
  [mkHeader (Some "From") (Some "jobs@example.com");
   mkHeader (Some "SUBJECT") None;
   mkHeader (Some "Subject") (Some "Software Engineer")].

(** A frame that has a title column and two columns of its own, in an
    order that is not the schema's. *)
Definition foreign_file : DataFrame :=
  mkDataFrame ["notes"; "salary"; "role_title"]
    [list_to_map [("notes", CStr "referral"); ("salary", CNaN);
                  ("role_title", CStr "Software Engineer")]].

(** A second rejection of the subject of [Sample.stray_rejection], from a
    named sender. *)
Definition stray_again : Message :=
  mkMessage
    (Some (mkPayload (Some
       [mkHeader (Some "From") (Some "talent@example.net");
        mkHeader (Some "Subject") (Some "Product Manager")])))
    (Some "we have decided not to move forward").

Definition rejections : list Message :=
  [Sample.rejection; Sample.stray_rejection; stray_again].

(** Two pages of a listing, the second without the key. *)
Definition first_page : ListResponse :=
  mkListResponse (Some [mkMessageMeta "18c2a"; mkMessageMeta "18c2b"]).

Definition more_pages : list ListResponse :=
  [mkListResponse None; mkListResponse (Some [mkMessageMeta "18c30"])].

(** A frame whose last row is the only one without a summary; for its
    index [Sample.summarizer] answers with a list that holds a number. *)
Definition late_frame : DataFrame :=
  mkDataFrame expected_columns
    [Sample.summarized_row; Sample.summarized_row; Sample.second_row].


End Sample2.

(* ===================================================================== *)
(** ** Facts about the pandas operations                                  *)
(* ===================================================================== *)

Section PandasFacts.

Implicit Types (df : DataFrame) (r : gmap string cell) (c col : string).

Lemma lookup_align cols r c :
  align cols r !! c =
    match r !! c with
    | Some v => Some v
    | None => if bool_decide (c ∈ cols) then Some CNaN else None
    end.
Proof.
  unfold align. rewrite lookup_union.
  destruct (r !! c) as [v|] eqn:Hr.
  - by destruct (gset_to_gmap CNaN (list_to_set cols) !! c).
  - rewrite lookup_gset_to_gmap. case_bool_decide as Hc.
    + rewrite option_guard_True; [done | by apply elem_of_list_to_set].
    + rewrite option_guard_False; [done | by rewrite elem_of_list_to_set].
Qed.

Lemma at_col_align cols r c : at_col c (align cols r) = at_col c r.
Proof.
  unfold at_col. rewrite lookup_align.
  destruct (r !! c); [done |]. by case_bool_decide.
Qed.

Lemma align_id cols r :
  (forall c, c ∈ cols -> is_Some (r !! c)) -> align cols r = r.
Proof.
  intros Hall. apply map_eq. intros c. rewrite lookup_align.
  destruct (r !! c) as [v|] eqn:Hr; [done |].
  case_bool_decide as Hc; [| done].
  destruct (Hall c Hc) as [v Hv]. congruence.
Qed.

Lemma dom_align cols r :
  dom (align cols r) = dom r ∪ list_to_set cols.
Proof.
  apply set_eq. intros c.
  rewrite elem_of_dom, lookup_align, elem_of_union, elem_of_dom, elem_of_list_to_set.
  destruct (r !! c) as [v|].
  - split; [by left | by eauto].
  - case_bool_decide as Hc.
    + split; [by right | by eauto].
    + split; [by intros [? ?] | by intros [[? ?] | ?]].
Qed.

Lemma wf_row df r c :
  wf df -> r ∈ rows df -> (is_Some (r !! c) <-> c ∈ columns df).
Proof.
  intros Hwf Hr. unfold wf in Hwf. rewrite Forall_forall in Hwf.
  specialize (Hwf r Hr).
  rewrite <- elem_of_dom, Hwf. apply elem_of_list_to_set.
Qed.

Lemma wf_align_id df r : wf df -> r ∈ rows df -> align (columns df) r = r.
Proof.
  intros Hwf Hr. apply align_id. intros c Hc. by apply (wf_row df r c).
Qed.

Lemma getitem_Ok df col :
  col ∈ columns df -> getitem df col = Py.Ok (map (at_col col) (rows df)).
Proof. intros H. unfold getitem. by rewrite bool_decide_eq_true_2. Qed.

Lemma filter_missing_nil (cols new : list string) :
  Forall (fun c => c ∈ cols) new -> filter (fun c => c ∉ cols) new = [].
Proof.
  induction 1 as [| c new Hc _ IH]; [done |].
  rewrite filter_cons_False; [done | by intros Hn].
Qed.

(** Appending one record whose keys are columns of the frame. *)
Lemma concat_from_record df row :
  wf df ->
  Forall (fun c => c ∈ columns df) (map fst row) ->
  concat df (from_record row) =
    mkDataFrame (columns df) (rows df ++ [align (columns df) (list_to_map row)]).
Proof.
  intros Hwf Hkeys. unfold concat, from_record. simpl.
  rewrite (filter_missing_nil _ _ Hkeys), app_nil_r, map_app. simpl.
  f_equal. f_equal.
  rewrite <- (map_id (rows df)) at 2.
  apply map_ext_in. intros r Hr. apply (wf_align_id df); [done |].
  by apply list_elem_of_In.
Qed.

Lemma any_map_Exists {A} (f : A -> bool) (l : list A) :
  any (map f l) = true <-> Exists (fun a => f a = true) l.
Proof.
  unfold any. induction l as [| a l IH]; simpl.
  - split; [done | by inversion 1].
  - rewrite Exists_cons, <- IH. unfold id at 1.
    destruct (f a); simpl; intuition congruence.
Qed.

Lemma eq_str_true s cl : eq_str s cl = true <-> cl = CStr s.
Proof.
  destruct cl as [t|]; simpl; [| done].
  rewrite String.eqb_eq. split; [by intros -> | by intros [= ->]].
Qed.

Lemma at_col_CStr r col s : at_col col r = CStr s <-> r !! col = Some (CStr s).
Proof.
  unfold at_col. destruct (r !! col) as [v|]; simpl; [| done].
  split; [by intros -> | by intros [= ->]].
Qed.

End PandasFacts.

(* ===================================================================== *)
(** ** Facts about the two scans                                          *)
(* ===================================================================== *)

Section LedgerFacts.

Implicit Types (df : DataFrame) (r : gmap string cell).

Lemma schema_column df c :
  schema_complete df -> c ∈ expected_columns -> c ∈ columns df.
Proof. unfold schema_complete. rewrite Forall_forall. auto. Qed.

Lemma new_record_keys df company title date status text :
  schema_complete df ->
  Forall (fun c => c ∈ columns df)
    (map fst (new_record company title date status text)).
Proof. intros H. exact H. Qed.

Lemma zip_with_mask {A B C} (f : B -> A -> C) (m : A -> B) (l : list A) :
  zip_with f (map m l) l = map (fun a => f (m a) a) l.
Proof. induction l as [| a l IH]; simpl; [done | by rewrite IH]. Qed.

Lemma zip_with_mask2 {A A' B C} (f : B -> A' -> C) (m : A -> B) (h : A -> A')
    (l : list A) :
  zip_with f (map m l) (map h l) = map (fun a => f (m a) (h a)) l.
Proof. induction l as [| a l IH]; simpl; [done | by rewrite IH]. Qed.

Lemma astype_fillna c : astype_str (fillna "" c) = cell_text c.
Proof. by destruct c. Qed.

Lemma concat_new_record df company title date status text :
  ledger df ->
  concat df (from_record (new_record company title date status text)) =
    mkDataFrame (columns df)
      (rows df ++ [appended df company title date status text]).
Proof.
  intros [Hwf Hs]. apply concat_from_record; [done |].
  by apply new_record_keys.
Qed.

Lemma lookup_new_record company title date status text c :
  (list_to_map (new_record company title date status text) : gmap string cell) !! c =
    if bool_decide (c = "company") then Some (CStr company)
    else if bool_decide (c = "role_title") then Some (CStr title)
    else if bool_decide (c = "job_link") then Some (CStr "")
    else if bool_decide (c = "applied_date") then Some (CStr date)
    else if bool_decide (c = "status") then Some (CStr status)
    else if bool_decide (c = "job_text") then Some (CStr text)
    else if bool_decide (c = "summary") then Some (CStr "")
    else if bool_decide (c = "skills") then Some (CStr "")
    else if bool_decide (c = "salary") then Some (CStr "")
    else None.
Proof.
  unfold new_record. simpl.
  repeat (case_bool_decide;
          [subst c; by simplify_map_eq | rewrite lookup_insert_ne by done]).
  apply lookup_empty.
Qed.

Lemma appended_fields df company title date status text :
  let r := appended df company title date status text in
  r !! "company" = Some (CStr company) /\
  r !! "role_title" = Some (CStr title) /\
  r !! "job_link" = Some (CStr "") /\
  r !! "applied_date" = Some (CStr date) /\
  r !! "status" = Some (CStr status) /\
  r !! "job_text" = Some (CStr text) /\
  r !! "summary" = Some (CStr "") /\
  r !! "skills" = Some (CStr "") /\
  r !! "salary" = Some (CStr "").
Proof.
  unfold appended. cbv zeta.
  rewrite !lookup_align, !lookup_new_record. by repeat split.
Qed.

Lemma appended_dom df company title date status text :
  schema_complete df ->
  dom (appended df company title date status text) = list_to_set (columns df).
Proof.
  intros Hs. unfold appended. rewrite dom_align.
  apply set_eq. intros c. rewrite elem_of_union, elem_of_dom, lookup_new_record.
  rewrite elem_of_list_to_set. split; [| by right].
  intros [Hc | Hc]; [| done].
  repeat (case_bool_decide;
          [subst c; apply (schema_column _ _ Hs); set_solver |]).
  by destruct Hc.
Qed.

Lemma ledger_append df company title date status text :
  ledger df ->
  ledger (mkDataFrame (columns df)
            (rows df ++ [appended df company title date status text])).
Proof.
  intros [Hwf Hs]. split; [| done].
  unfold wf in *. simpl. apply Forall_app. split; [done |].
  apply Forall_singleton. by apply appended_dom.
Qed.

Lemma keyed_dedup_key title date r :
  keyed title date r <-> dedup_key r = key_of title date.
Proof.
  unfold keyed, dedup_key, key_of. rewrite <- !at_col_CStr.
  split; [by intros [-> ->] | by intros [= -> ->]].
Qed.

Lemma Exists_keyed_elem title date (rs : list (gmap string cell)) :
  Exists (keyed title date) rs <-> key_of title date ∈ map dedup_key rs.
Proof.
  rewrite Exists_exists, list_elem_of_fmap.
  setoid_rewrite keyed_dedup_key.
  split; [intros (r & Hr & Hk) | intros (r & Hk & Hr)]; by exists r.
Qed.

Lemma appended_key df company title date status text :
  dedup_key (appended df company title date status text) = key_of title date.
Proof.
  apply keyed_dedup_key.
  pose proof (appended_fields df company title date status text) as Hf.
  cbv zeta in Hf. unfold keyed. tauto.
Qed.

Lemma reject_row_dom subject snippet r :
  is_Some (r !! "status") -> is_Some (r !! "job_text") ->
  dom (reject_row subject snippet r) = dom r.
Proof.
  intros Hs Hj. unfold reject_row. destruct (eq_str _ _); [| done].
  apply elem_of_dom in Hs, Hj. rewrite !dom_insert_L. set_solver.
Qed.

Lemma ledger_reject df subject snippet :
  ledger df ->
  ledger (mkDataFrame (columns df) (map (reject_row subject snippet) (rows df))).
Proof.
  intros [Hwf Hs]. split; [| done].
  unfold wf in *. simpl. rewrite Forall_forall in Hwf.
  apply Forall_forall. intros r' Hr'.
  apply list_elem_of_fmap in Hr' as (r & -> & Hr).
  rewrite reject_row_dom; [by apply Hwf | |];
    apply (wf_row df r); try done;
    try (by apply Forall_forall);
    apply schema_column; try done; set_solver.
Qed.

Lemma fmt_d_2_length n : n < 100 -> String.length (Py.fmt_d 2 n) = 2.
Proof.
  intros Hn.
  assert (Hall : forallb (fun k => Nat.eqb (String.length (Py.fmt_d 2 k)) 2) (seq 0 100) = true)
    by (vm_compute; reflexivity).
  rewrite forallb_forall in Hall. apply Nat.eqb_eq, Hall, in_seq. lia.
Qed.

Lemma fmt_d_4_length n : n < 10000 -> String.length (Py.fmt_d 4 n) = 4.
Proof.
  intros Hn.
  assert (Hall : forallb (fun k => Nat.eqb (String.length (Py.fmt_d 4 k)) 4) (seq 0 10000) = true)
    by (vm_compute; reflexivity).
  rewrite forallb_forall in Hall. apply Nat.eqb_eq, Hall, in_seq. lia.
Qed.

Lemma string_length_app (s t : string) :
  String.length (s +:+ t) = String.length s + String.length t.
Proof. induction s as [| c s IH]; simpl; [done | by rewrite IH]. Qed.

(** An ISO date of a four-digit year is ten characters long. *)
Lemma isoformat_length d :
  d_year d < 10000 -> d_month d < 100 -> d_day d < 100 ->
  String.length (isoformat d) = 10.
Proof.
  intros Hy Hm Hd. unfold isoformat.
  rewrite !string_length_app, fmt_d_4_length, !fmt_d_2_length by done.
  reflexivity.
Qed.

End LedgerFacts.

Section ScanFacts.

Variable parsedate_to_datetime : string -> Py.Result datetime.

Implicit Types (df : DataFrame) (r : gmap string cell) (msg : Message).

Lemma dup_mask_Exists title date (rs : list (gmap string cell)) :
  any (zip_with andb
         (map (eq_str title) (map (at_col "role_title") rs))
         (map (eq_str date) (map (at_col "applied_date") rs))) = true
  <-> Exists (keyed title date) rs.
Proof.
  unfold any. induction rs as [| r rs IH]; simpl.
  - split; [done | by inversion 1].
  - rewrite Exists_cons, <- IH. unfold id at 1, keyed.
    rewrite <- !at_col_CStr, <- !eq_str_true.
    destruct (eq_str title _), (eq_str date _); simpl; intuition congruence.
Qed.

Lemma title_mask_Exists title (rs : list (gmap string cell)) :
  any (map (eq_str title) (map (at_col "role_title") rs)) = true
  <-> Exists (titled title) rs.
Proof.
  rewrite map_map, any_map_Exists, !Exists_exists.
  unfold titled. setoid_rewrite eq_str_true. by setoid_rewrite at_col_CStr.
Qed.

Lemma parse_date_Raise s e :
  parsedate_to_datetime s = Py.Raise e -> parse_date parsedate_to_datetime s = "".
Proof. intros He. unfold parse_date. by rewrite He. Qed.

Lemma parse_date_Ok s dt :
  parsedate_to_datetime s = Py.Ok dt ->
  parse_date parsedate_to_datetime s = isoformat (dt_date dt).
Proof. intros Hdt. unfold parse_date. by rewrite Hdt. Qed.

(** A confirmation whose key is in the frame changes nothing. *)
Lemma confirmation_step_dup df msg :
  "role_title" ∈ columns df -> "applied_date" ∈ columns df ->
  Exists (keyed (subject_of msg) (parse_date parsedate_to_datetime (date_header_of msg)))
    (rows df) ->
  confirmation_step parsedate_to_datetime df msg = Py.Ok df.
Proof.
  intros Ht Hd Hex. unfold confirmation_step.
  rewrite (getitem_Ok _ _ Ht), (getitem_Ok _ _ Hd). cbn.
  apply dup_mask_Exists in Hex.
  unfold subject_of, date_header_of in Hex. by rewrite Hex.
Qed.

(** A confirmation whose key is not in the frame is concatenated. *)
Lemma confirmation_step_fresh df msg :
  "role_title" ∈ columns df -> "applied_date" ∈ columns df ->
  ~ Exists (keyed (subject_of msg) (parse_date parsedate_to_datetime (date_header_of msg)))
      (rows df) ->
  confirmation_step parsedate_to_datetime df msg =
    Py.Ok (concat df (from_record
             (new_record (sender_of msg) (subject_of msg)
                (parse_date parsedate_to_datetime (date_header_of msg))
                "Applied" (snippet_of msg)))).
Proof.
  intros Ht Hd Hex. unfold confirmation_step.
  rewrite (getitem_Ok _ _ Ht), (getitem_Ok _ _ Hd). cbn.
  rewrite <- dup_mask_Exists in Hex.
  unfold subject_of, date_header_of in Hex.
  by destruct (any _); [destruct Hex |].
Qed.

Lemma rejection_step_match df msg :
  wf df ->
  "role_title" ∈ columns df -> "status" ∈ columns df -> "job_text" ∈ columns df ->
  Exists (titled (subject_of msg)) (rows df) ->
  rejection_step parsedate_to_datetime df msg =
    Py.Ok (mkDataFrame (columns df)
             (map (reject_row (subject_of msg) (snippet_of msg)) (rows df))).
Proof.
  intros Hwf Ht Hs Hj Hex. unfold rejection_step.
  rewrite (getitem_Ok _ _ Ht). cbn.
  apply title_mask_Exists in Hex. unfold subject_of in Hex. rewrite Hex.
  unfold loc_update, loc_set. cbn.
  rewrite (bool_decide_eq_true_2 _ Hs), (bool_decide_eq_true_2 _ Hj).
  do 2 f_equal.
  rewrite map_map, zip_with_mask, zip_with_mask2.
  apply map_ext_in. intros r Hr. apply list_elem_of_In in Hr.
  unfold reject_row, subject_of, snippet_of.
  destruct (eq_str _ (at_col "role_title" r)).
  - rewrite astype_fillna. do 3 f_equal.
    unfold at_col. by rewrite lookup_insert_ne.
  - destruct (proj2 (wf_row df r "status" Hwf Hr) Hs) as [v Hv].
    by rewrite Hv.
Qed.

Lemma rejection_step_fresh df msg :
  "role_title" ∈ columns df ->
  ~ Exists (titled (subject_of msg)) (rows df) ->
  rejection_step parsedate_to_datetime df msg =
    Py.Ok (concat df (from_record
             (new_record (sender_of msg) (subject_of msg)
                (parse_date parsedate_to_datetime (date_header_of msg))
                "Rejected" (snippet_of msg)))).
Proof.
  intros Ht Hex. unfold rejection_step.
  rewrite (getitem_Ok _ _ Ht). cbn.
  rewrite <- title_mask_Exists in Hex. unfold subject_of in Hex.
  by destruct (any _); [destruct Hex |].
Qed.

End ScanFacts.

(* ===================================================================== *)
(** ** The reconciliation of one event                                    *)
(* ===================================================================== *)

Lemma ledger_two_rows : ledger Sample.two_rows.
Proof.
  split.
  - unfold wf. repeat constructor; vm_compute; reflexivity.
  - unfold schema_complete. apply Forall_forall. intros c Hc. exact Hc.
Defined.

Section StepSpec.

Variable parsedate_to_datetime : string -> Py.Result datetime.

Abbreviation parse_date := (parse_date parsedate_to_datetime).
Abbreviation confirmation_step := (confirmation_step parsedate_to_datetime).
Abbreviation rejection_step := (rejection_step parsedate_to_datetime).

(** C3: a confirmation event whose subject and normalized date are the
    [role_title] and [applied_date] of some record of the ledger (equal
    as strings, the empty date included) is discarded and the ledger
    comes back unchanged; any other confirmation event appends one
    record with status "Applied", company the sender, role_title the
    subject, applied_date the normalized date, job_text the snippet and
    an empty job_link, summary, skills and salary. *)
Theorem confirmation_step_spec (df : DataFrame) (msg : Message) :
  ledger df ->
  let subject := subject_of msg in
  let applied_date := parse_date (date_header_of msg) in
  (Exists (keyed subject applied_date) (rows df) ->
     confirmation_step df msg = Py.Ok df) /\
  (~ Exists (keyed subject applied_date) (rows df) ->
     exists r : gmap string cell,
       confirmation_step df msg =
         Py.Ok (mkDataFrame (columns df) (rows df ++ [r])) /\
       r !! "status" = Some (CStr "Applied") /\
       r !! "company" = Some (CStr (sender_of msg)) /\
       r !! "role_title" = Some (CStr subject) /\
       r !! "applied_date" = Some (CStr applied_date) /\
       r !! "job_text" = Some (CStr (snippet_of msg)) /\
       r !! "job_link" = Some (CStr "") /\
       r !! "summary" = Some (CStr "") /\
       r !! "skills" = Some (CStr "") /\
       r !! "salary" = Some (CStr "")).
Proof.
  intros Hl subject applied_date.
  assert (Ht : "role_title" ∈ columns df)
    by (apply schema_column; [apply Hl | set_solver]).
  assert (Hd : "applied_date" ∈ columns df)
    by (apply schema_column; [apply Hl | set_solver]).
  split.
  - intros Hex. by apply confirmation_step_dup.
  - intros Hex.
    exists (appended df (sender_of msg) subject applied_date "Applied" (snippet_of msg)).
    split.
    + rewrite confirmation_step_fresh by done.
      by rewrite concat_new_record.
    + pose proof (appended_fields df (sender_of msg) subject applied_date
                    "Applied" (snippet_of msg)) as Hf.
      cbv zeta in Hf. tauto.
Qed.

(** C4: a rejection event whose subject is the [role_title] of no record
    makes the ledger one record longer; the new record has status
    "Rejected", role_title the subject, company the sender, job_text the
    snippet, applied_date the normalized date and an empty job_link,
    summary, skills and salary.  Hence every rejection event leaves a
    trace: the pass raises nothing and either the ledger grew by one row
    or a matched record now reads "Rejected" with the snippet at the end
    of its job_text. *)
Theorem rejection_step_no_match (df : DataFrame) (msg : Message) :
  ledger df ->
  let subject := subject_of msg in
  let rejection_date := parse_date (date_header_of msg) in
  (~ Exists (titled subject) (rows df) ->
     exists r : gmap string cell,
       rejection_step df msg =
         Py.Ok (mkDataFrame (columns df) (rows df ++ [r])) /\
       length (rows df ++ [r]) = S (length (rows df)) /\
       r !! "status" = Some (CStr "Rejected") /\
       r !! "role_title" = Some (CStr subject) /\
       r !! "company" = Some (CStr (sender_of msg)) /\
       r !! "job_text" = Some (CStr (snippet_of msg)) /\
       r !! "applied_date" = Some (CStr rejection_date) /\
       r !! "summary" = Some (CStr "") /\
       r !! "skills" = Some (CStr "") /\
       r !! "salary" = Some (CStr "") /\
       r !! "job_link" = Some (CStr "")) /\
  (exists df' : DataFrame,
     rejection_step df msg = Py.Ok df' /\
     (length (rows df') = S (length (rows df)) \/
      Exists (fun r' : gmap string cell =>
                titled subject r' /\
                r' !! "status" = Some (CStr "Rejected") /\
                exists before : string,
                  r' !! "job_text" =
                    Some (CStr (before +:+ rejection_separator +:+ snippet_of msg)))
        (rows df'))).
Proof.
  intros Hl subject rejection_date.
  assert (Ht : "role_title" ∈ columns df)
    by (apply schema_column; [apply Hl | set_solver]).
  assert (Hfresh : ~ Exists (titled subject) (rows df) ->
            rejection_step df msg =
              Py.Ok (mkDataFrame (columns df)
                       (rows df ++ [appended df (sender_of msg) subject
                                      rejection_date "Rejected" (snippet_of msg)]))).
  { intros Hex. rewrite rejection_step_fresh by done.
    by rewrite concat_new_record. }
  split.
  - intros Hex. eexists. split; [by apply Hfresh |].
    split; [rewrite length_app; simpl; lia |].
    pose proof (appended_fields df (sender_of msg) subject rejection_date
                  "Rejected" (snippet_of msg)) as Hf.
    cbv zeta in Hf. tauto.
  - destruct (decide (Exists (titled subject) (rows df))) as [Hex | Hex].
    + eexists. split.
      * apply rejection_step_match; try done; try apply Hl;
          apply schema_column; try apply Hl; set_solver.
      * right. simpl. rewrite Exists_exists in Hex.
        destruct Hex as (r & Hr & Hrt).
        apply Exists_exists. exists (reject_row subject (snippet_of msg) r).
        split; [by apply list_elem_of_fmap_2 |].
        unfold reject_row. unfold titled in Hrt.
        apply at_col_CStr, eq_str_true in Hrt. rewrite Hrt.
        apply eq_str_true, at_col_CStr in Hrt.
        split; [| split].
        -- unfold titled. by rewrite !lookup_insert_ne.
        -- rewrite lookup_insert_ne by done. apply lookup_insert_eq.
        -- eexists. by rewrite lookup_insert_eq.
    + eexists. split; [by apply Hfresh |].
      left. simpl. rewrite length_app. simpl. lia.
Qed.

(** C1: when the subject of a rejection event is the [role_title] of at
    least one record, the pass keeps the ledger's columns and length; each
    record with that [role_title] gets status "Rejected" and its job_text
    becomes the text it held, then the separator "\n[Rejection snippet] ",
    then the snippet, every other field kept; a record with another title
    is left as it was.  So a record already "Rejected" stays "Rejected"
    and gains one more snippet line. *)
Theorem rejection_step_matched (df : DataFrame) (msg : Message) :
  ledger df ->
  Exists (titled (subject_of msg)) (rows df) ->
  exists df' : DataFrame,
    rejection_step df msg = Py.Ok df' /\
    columns df' = columns df /\
    length (rows df') = length (rows df) /\
    forall (i : nat) (r : gmap string cell),
      rows df !! i = Some r ->
      (titled (subject_of msg) r ->
         exists r' : gmap string cell,
           rows df' !! i = Some r' /\
           r' !! "status" = Some (CStr "Rejected") /\
           r' !! "job_text" =
             Some (CStr (cell_text (at_col "job_text" r)
                           +:+ rejection_separator +:+ snippet_of msg)) /\
           (forall c : string, c <> "status" -> c <> "job_text" -> r' !! c = r !! c)) /\
      (~ titled (subject_of msg) r -> rows df' !! i = Some r).
Proof.
  intros Hl Hex.
  eexists. split.
  { apply rejection_step_match; try done; try apply Hl;
      apply schema_column; try apply Hl; set_solver. }
  simpl. split; [done |]. split; [by rewrite length_map |].
  intros i r Hi.
  rewrite list_lookup_fmap, Hi. simpl. unfold reject_row. split.
  - intros Hrt. unfold titled in Hrt.
    apply at_col_CStr, eq_str_true in Hrt. rewrite Hrt.
    eexists. split; [done |].
    split; [by simplify_map_eq |]. split; [by simplify_map_eq |].
    intros c Hc1 Hc2. by rewrite !lookup_insert_ne.
  - intros Hrt. destruct (eq_str _ _) eqn:He; [| done].
    destruct Hrt. by apply at_col_CStr, eq_str_true.
Qed.

End StepSpec.

Lemma confirmation_step_spec_witness :
  ledger Sample.two_rows /\
  confirmation_step Sample.parser Sample.two_rows Sample.undated
    = Py.Ok Sample.two_rows.
Proof.
  split; [exact ledger_two_rows |].
  apply (confirmation_step_spec Sample.parser Sample.two_rows Sample.undated
           ledger_two_rows).
  unfold Sample.two_rows. simpl rows.
  apply Exists_cons_tl, Exists_cons_hd. split; vm_compute; reflexivity.
Defined.

Lemma stray_rejection_unmatched :
  ~ Exists (titled (subject_of Sample.stray_rejection)) (rows Sample.two_rows).
Proof.
  intros Hex.
  repeat (apply Exists_cons in Hex as [Hex | Hex];
          [vm_compute in Hex; discriminate |]).
  by apply Exists_nil in Hex.
Defined.

Lemma rejection_step_no_match_witness :
  ledger Sample.two_rows /\
  exists r : gmap string cell,
    rejection_step Sample.parser Sample.two_rows Sample.stray_rejection =
      Py.Ok (mkDataFrame (columns Sample.two_rows) (rows Sample.two_rows ++ [r])) /\
    r !! "status" = Some (CStr "Rejected") /\
    r !! "role_title" = Some (CStr "Product Manager") /\
    r !! "applied_date" = Some (CStr "").
Proof.
  split; [exact ledger_two_rows |].
  destruct (rejection_step_no_match Sample.parser Sample.two_rows
              Sample.stray_rejection ledger_two_rows) as [Hins _].
  destruct (Hins stray_rejection_unmatched)
    as (r & Hstep & _ & Hst & Hti & _ & _ & Hda & _).
  exists r. repeat split; assumption.
Defined.

Lemma rejection_matches_first_row :
  Exists (titled (subject_of Sample.rejection)) (rows Sample.two_rows).
Proof. apply Exists_cons_hd. vm_compute. reflexivity. Defined.

Lemma rejection_step_matched_witness :
  ledger Sample.two_rows /\
  Exists (titled (subject_of Sample.rejection)) (rows Sample.two_rows) /\
  exists df' : DataFrame,
    rejection_step Sample.parser Sample.two_rows Sample.rejection = Py.Ok df' /\
    columns df' = columns Sample.two_rows /\
    length (rows df') = 2.
Proof.
  split; [exact ledger_two_rows |].
  split; [exact rejection_matches_first_row |].
  destruct (rejection_step_matched Sample.parser Sample.two_rows Sample.rejection
              ledger_two_rows rejection_matches_first_row)
    as (df' & Hstep & Hcols & Hlen & _).
  exists df'. repeat split; assumption.
Defined.

(* ===================================================================== *)
(** ** The passes over a batch of events                                  *)
(* ===================================================================== *)

Section PassFacts.

Variable parsedate_to_datetime : string -> Py.Result datetime.

Abbreviation parse_date := (parse_date parsedate_to_datetime).
Abbreviation confirmation_step := (confirmation_step parsedate_to_datetime).
Abbreviation rejection_step := (rejection_step parsedate_to_datetime).
Abbreviation scan_confirmations := (scan_confirmations parsedate_to_datetime).
Abbreviation scan_rejections := (scan_rejections parsedate_to_datetime).

Implicit Types (df : DataFrame) (r : gmap string cell) (msg : Message).

(** The row a confirmation appends to [df]. *)
Lemma confirmation_step_cases df msg :
  ledger df ->
  (Exists (keyed (subject_of msg) (parse_date (date_header_of msg))) (rows df) /\
   confirmation_step df msg = Py.Ok df) \/
  (~ Exists (keyed (subject_of msg) (parse_date (date_header_of msg))) (rows df) /\
   confirmation_step df msg =
     Py.Ok (mkDataFrame (columns df)
              (rows df ++ [appended df (sender_of msg) (subject_of msg)
                             (parse_date (date_header_of msg)) "Applied"
                             (snippet_of msg)]))).
Proof.
  intros Hl.
  assert (Ht : "role_title" ∈ columns df)
    by (apply schema_column; [apply Hl | set_solver]).
  assert (Hd : "applied_date" ∈ columns df)
    by (apply schema_column; [apply Hl | set_solver]).
  destruct (decide (Exists (keyed (subject_of msg)
                              (parse_date (date_header_of msg))) (rows df)))
    as [Hex | Hex].
  - left. split; [done |]. by apply confirmation_step_dup.
  - right. split; [done |].
    rewrite confirmation_step_fresh by done. by rewrite concat_new_record.
Qed.

(** A pass over events that are all recorded changes nothing. *)
Lemma scan_confirmations_recorded (messages : list Message) df :
  ledger df ->
  Forall (fun msg => Exists (keyed (subject_of msg) (parse_date (date_header_of msg)))
                       (rows df)) messages ->
  scan_confirmations messages df = Py.Ok df.
Proof.
  intros Hl. induction 1 as [| msg messages Hmsg _ IH]; [done |].
  simpl. destruct (confirmation_step_cases df msg Hl) as [[_ ->] | [Hn _]];
    [exact IH | by destruct Hn].
Qed.

(** The shape of a confirmation pass: rows are appended, one for the
    first event of each key the ledger did not hold. *)
Lemma scan_confirmations_shape (messages : list Message) df :
  ledger df ->
  exists inserted : list (gmap string cell),
    scan_confirmations messages df =
      Py.Ok (mkDataFrame (columns df) (rows df ++ inserted)) /\
    ledger (mkDataFrame (columns df) (rows df ++ inserted)) /\
    NoDup (map dedup_key inserted) /\
    Forall (fun r => dedup_key r ∉ map dedup_key (rows df)) inserted /\
    Forall (fun r =>
              exists (earlier later : list Message) msg,
                messages = earlier ++ msg :: later /\
                r = appended df (sender_of msg) (subject_of msg)
                      (parse_date (date_header_of msg)) "Applied" (snippet_of msg) /\
                Forall (fun msg' =>
                          key_of (subject_of msg') (parse_date (date_header_of msg'))
                          <> dedup_key r) earlier)
      inserted /\
    Forall (fun msg =>
              Exists (keyed (subject_of msg) (parse_date (date_header_of msg)))
                (rows df ++ inserted))
      messages.
Proof.
  revert df. induction messages as [| msg messages IH]; intros df Hl.
  - exists []. rewrite app_nil_r. destruct df as [cols rs]. simpl.
    split; [done |]. split; [exact Hl |].
    split; [constructor |]. split; [constructor |]. split; constructor.
  - simpl. destruct (confirmation_step_cases df msg Hl) as [[Hex ->] | [Hex ->]].
    + destruct (IH df Hl) as (ins & Hrun & Hl' & Hnd & Hnew & Hfirst & Hrec).
      exists ins. cbn. split; [exact Hrun |]. split; [exact Hl' |].
      split; [exact Hnd |]. split; [exact Hnew |]. split.
      * rewrite Forall_forall in Hnew.
        rewrite Forall_forall in Hfirst. apply Forall_forall. intros r Hr.
        destruct (Hfirst r Hr) as (earlier & later & m & -> & Hrm & Hearlier).
        exists (msg :: earlier), later, m. split; [done |]. split; [done |].
        constructor; [| done].
        intros Heq. apply (Hnew _ Hr). rewrite <- Heq.
        by apply Exists_keyed_elem.
      * constructor; [| exact Hrec].
        apply Exists_app. by left.
    + set (r0 := appended df (sender_of msg) (subject_of msg)
                   (parse_date (date_header_of msg)) "Applied" (snippet_of msg)) in *.
      pose proof (ledger_append df (sender_of msg) (subject_of msg)
                    (parse_date (date_header_of msg)) "Applied" (snippet_of msg) Hl)
        as Hl1.
      fold r0 in Hl1.
      destruct (IH _ Hl1) as (ins & Hrun & Hl' & Hnd & Hnew & Hfirst & Hrec).
      simpl in Hrun, Hl', Hnew, Hrec.
      assert (Hk0 : dedup_key r0 = key_of (subject_of msg) (parse_date (date_header_of msg)))
        by apply appended_key.
      rewrite Forall_forall in Hnew.
      exists (r0 :: ins).
      rewrite <- app_assoc in Hrun, Hl', Hrec. simpl in Hrun, Hl', Hrec.
      split; [exact Hrun |]. split; [exact Hl' |]. split.
      * simpl. constructor; [| exact Hnd].
        rewrite list_elem_of_fmap. intros (r & Heq & Hr).
        apply (Hnew r Hr). rewrite <- Heq, map_app. simpl.
        apply elem_of_app. right. by left.
      * split.
        { constructor.
          - rewrite Hk0. by rewrite <- Exists_keyed_elem.
          - apply Forall_forall. intros r Hr Hin. apply (Hnew r Hr).
            rewrite map_app. apply elem_of_app. by left. }
        split.
        { constructor.
          - exists [], messages, msg. by repeat split.
          - rewrite Forall_forall in Hfirst. apply Forall_forall. intros r Hr.
            destruct (Hfirst r Hr) as (earlier & later & m & -> & Hrm & Hearlier).
            exists (msg :: earlier), later, m. split; [done |]. split; [done |].
            constructor; [| done].
            rewrite <- Hk0. intros Heq. apply (Hnew _ Hr). rewrite <- Heq.
            rewrite map_app. simpl. apply elem_of_app. right. by left. }
        constructor; [| exact Hrec].
        apply Exists_app. right. apply Exists_cons_hd.
        by apply keyed_dedup_key.
Qed.

End PassFacts.

Section PassSpec.

Variable parsedate_to_datetime : string -> Py.Result datetime.

Abbreviation parse_date := (parse_date parsedate_to_datetime).
Abbreviation confirmation_step := (confirmation_step parsedate_to_datetime).
Abbreviation rejection_step := (rejection_step parsedate_to_datetime).
Abbreviation scan_confirmations := (scan_confirmations parsedate_to_datetime).
Abbreviation scan_rejections := (scan_rejections parsedate_to_datetime).

Implicit Types (df : DataFrame) (r : gmap string cell) (msg : Message).

Lemma rejection_step_cases df msg :
  ledger df ->
  (Exists (titled (subject_of msg)) (rows df) /\
   rejection_step df msg =
     Py.Ok (mkDataFrame (columns df)
              (map (reject_row (subject_of msg) (snippet_of msg)) (rows df)))) \/
  (~ Exists (titled (subject_of msg)) (rows df) /\
   rejection_step df msg =
     Py.Ok (mkDataFrame (columns df)
              (rows df ++ [appended df (sender_of msg) (subject_of msg)
                             (parse_date (date_header_of msg)) "Rejected"
                             (snippet_of msg)]))).
Proof.
  intros Hl.
  assert (Hcol : forall c, c ∈ expected_columns -> c ∈ columns df)
    by (intros c Hc; apply schema_column; [apply Hl | done]).
  destruct (decide (Exists (titled (subject_of msg)) (rows df))) as [Hex | Hex].
  - left. split; [done |].
    apply rejection_step_match; try done; try apply Hl; apply Hcol; set_solver.
  - right. split; [done |].
    rewrite rejection_step_fresh; [| apply Hcol; set_solver | done].
    by rewrite concat_new_record.
Qed.

Lemma scan_rejections_total (messages : list Message) df :
  ledger df ->
  exists df' : DataFrame, scan_rejections messages df = Py.Ok df' /\ ledger df'.
Proof.
  revert df. induction messages as [| msg messages IH]; intros df Hl.
  - by exists df.
  - simpl. destruct (rejection_step_cases df msg Hl) as [[_ ->] | [_ ->]].
    + apply IH. by apply ledger_reject.
    + apply IH. by apply ledger_append.
Qed.

(** C2: a second confirmation pass with the same events over the result of
    the first returns that result unchanged: the pass over a ledger returns
    a ledger [once], the pass over [once] returns [once], and on [once] the
    duplicate check discards each of the events. *)
Theorem scan_confirmations_idempotent (messages : list Message) (df : DataFrame) :
  ledger df ->
  exists once : DataFrame,
    scan_confirmations messages df = Py.Ok once /\
    scan_confirmations messages once = Py.Ok once /\
    Forall (fun msg => confirmation_step once msg = Py.Ok once) messages.
Proof.
  intros Hl.
  destruct (scan_confirmations_shape parsedate_to_datetime messages df Hl)
    as (ins & Hrun & Hl' & _ & _ & _ & Hrec).
  eexists. split; [exact Hrun |]. split.
  - by apply scan_confirmations_recorded.
  - eapply Forall_impl; [exact Hrec |]. intros msg Hmsg.
    destruct (confirmation_step_cases parsedate_to_datetime _ msg Hl')
      as [[_ Heq] | [Hn _]]; [exact Heq | by destruct Hn].
Qed.

(** C10: a confirmation pass only appends rows; the rows it appends carry
    pairwise different (role_title, applied_date) pairs, none of which the
    ledger held before; and each appended row is the row of an event that
    no earlier event of the batch shares its pair with, so of two events
    with the same subject and normalized date only the first is
    inserted. *)
Theorem scan_confirmations_inserts_once (messages : list Message) (df : DataFrame) :
  ledger df ->
  exists inserted : list (gmap string cell),
    scan_confirmations messages df =
      Py.Ok (mkDataFrame (columns df) (rows df ++ inserted)) /\
    NoDup (map dedup_key inserted) /\
    Forall (fun r => dedup_key r ∉ map dedup_key (rows df)) inserted /\
    Forall (fun r =>
              exists (earlier later : list Message) msg,
                messages = earlier ++ msg :: later /\
                r = appended df (sender_of msg) (subject_of msg)
                      (parse_date (date_header_of msg)) "Applied" (snippet_of msg) /\
                dedup_key r = key_of (subject_of msg) (parse_date (date_header_of msg)) /\
                Forall (fun msg' =>
                          key_of (subject_of msg') (parse_date (date_header_of msg'))
                          <> key_of (subject_of msg) (parse_date (date_header_of msg)))
                  earlier)
      inserted.
Proof.
  intros Hl.
  destruct (scan_confirmations_shape parsedate_to_datetime messages df Hl)
    as (ins & Hrun & _ & Hnd & Hnew & Hfirst & _).
  exists ins. split; [exact Hrun |]. split; [exact Hnd |]. split; [exact Hnew |].
  eapply Forall_impl; [exact Hfirst |].
  intros r (earlier & later & msg & Hm & Hr & Hearlier).
  exists earlier, later, msg.
  assert (Hk : dedup_key r = key_of (subject_of msg) (parse_date (date_header_of msg)))
    by (rewrite Hr; apply appended_key).
  split; [done |]. split; [done |]. split; [done |]. by rewrite <- Hk.
Qed.

(** C9: [parse_date] has no error outcome: it returns the empty string
    when the header does not parse and otherwise the ISO date made of the
    year, month and day fields of the parsed timestamp as they stand,
    whatever its UTC offset (ten characters, YYYY-MM-DD, for a year of at
    most four digits).  An event with an unparseable date is processed
    with applied_date "": a confirmation is inserted with that date unless
    a record carries its title with an empty date string, a rejection
    that matches no record is inserted with that date.  No event makes a
    pass over a ledger raise. *)
Theorem parse_date_never_fails :
  (forall (s : string) (e : Py.exn),
     parsedate_to_datetime s = Py.Raise e -> parse_date s = "") /\
  (forall (s : string) (dt : datetime),
     parsedate_to_datetime s = Py.Ok dt ->
     parse_date s =
       Py.fmt_d 4 (dt_year dt) +:+ "-" +:+ Py.fmt_d 2 (dt_month dt)
         +:+ "-" +:+ Py.fmt_d 2 (dt_day dt) /\
     (dt_year dt < 10000 -> dt_month dt < 100 -> dt_day dt < 100 ->
      String.length (parse_date s) = 10 /\
      String.get 4 (parse_date s) = Some "-"%char /\
      String.get 7 (parse_date s) = Some "-"%char)) /\
  (forall (df : DataFrame) (msg : Message) (e : Py.exn),
     ledger df ->
     parsedate_to_datetime (date_header_of msg) = Py.Raise e ->
     (~ Exists (keyed (subject_of msg) "") (rows df) ->
        exists r : gmap string cell,
          confirmation_step df msg =
            Py.Ok (mkDataFrame (columns df) (rows df ++ [r])) /\
          r !! "applied_date" = Some (CStr "") /\
          r !! "role_title" = Some (CStr (subject_of msg))) /\
     (~ Exists (titled (subject_of msg)) (rows df) ->
        exists r : gmap string cell,
          rejection_step df msg =
            Py.Ok (mkDataFrame (columns df) (rows df ++ [r])) /\
          r !! "applied_date" = Some (CStr "") /\
          r !! "role_title" = Some (CStr (subject_of msg)))) /\
  (forall (messages : list Message) (df : DataFrame),
     ledger df ->
     (exists df' : DataFrame,
        scan_confirmations messages df = Py.Ok df' /\ ledger df') /\
     (exists df' : DataFrame,
        scan_rejections messages df = Py.Ok df' /\ ledger df')).
Proof.
  split; [| split; [| split]].
  - intros s e He. by apply (parse_date_Raise _ _ e).
  - intros s dt Hdt.
    assert (Hiso : parse_date s = isoformat (dt_date dt))
      by (by apply parse_date_Ok).
    split; [by rewrite Hiso |].
    intros Hy Hm Hd. split; [rewrite Hiso; by apply isoformat_length |].
    rewrite Hiso. unfold isoformat, dt_date. simpl.
    pose proof (fmt_d_4_length _ Hy) as H4.
    pose proof (fmt_d_2_length _ Hm) as H2.
    destruct (Py.fmt_d 4 (dt_year dt)) as [| a [| b [| c [| d [| ? ?]]]]];
      try discriminate.
    destruct (Py.fmt_d 2 (dt_month dt)) as [| f [| g [| ? ?]]];
      try discriminate.
    done.
  - intros df msg e Hl He.
    assert (Hdate : parse_date (date_header_of msg) = "")
      by (by apply (parse_date_Raise _ _ e)).
    split.
    + intros Hex.
      destruct (confirmation_step_cases parsedate_to_datetime df msg Hl)
        as [[Hdup _] | [_ Hstep]]; [rewrite Hdate in Hdup; by destruct Hex |].
      eexists. split; [exact Hstep |].
      pose proof (appended_fields df (sender_of msg) (subject_of msg)
                    (parse_date (date_header_of msg)) "Applied" (snippet_of msg)) as Hf.
      cbv zeta in Hf. destruct Hf as (_ & Hti & _ & Hda & _).
      split; [by rewrite Hda, Hdate | exact Hti].
    + intros Hex.
      destruct (rejection_step_cases df msg Hl)
        as [[Hm _] | [_ Hstep]]; [by destruct Hex |].
      eexists. split; [exact Hstep |].
      pose proof (appended_fields df (sender_of msg) (subject_of msg)
                    (parse_date (date_header_of msg)) "Rejected" (snippet_of msg)) as Hf.
      cbv zeta in Hf. destruct Hf as (_ & Hti & _ & Hda & _).
      split; [by rewrite Hda, Hdate | exact Hti].
  - intros messages df Hl. split.
    + destruct (scan_confirmations_shape parsedate_to_datetime messages df Hl)
        as (ins & Hrun & Hl' & _).
      eexists. split; [exact Hrun | exact Hl'].
    + by apply scan_rejections_total.
Qed.

End PassSpec.

Lemma ledger_no_file : ledger (load_jobs_df None).
Proof.
  split.
  - unfold wf. constructor.
  - unfold schema_complete. apply Forall_forall. intros c Hc. exact Hc.
Defined.

Lemma scan_confirmations_idempotent_witness :
  ledger (load_jobs_df None) /\
  exists once : DataFrame,
    scan_confirmations Sample.parser Sample.batch (load_jobs_df None) = Py.Ok once /\
    scan_confirmations Sample.parser Sample.batch once = Py.Ok once /\
    Forall (fun msg => confirmation_step Sample.parser once msg = Py.Ok once)
      Sample.batch.
Proof.
  split; [exact ledger_no_file |].
  exact (scan_confirmations_idempotent Sample.parser Sample.batch
           (load_jobs_df None) ledger_no_file).
Defined.

Lemma scan_confirmations_inserts_once_witness :
  ledger (load_jobs_df None) /\
  exists inserted : list (gmap string cell),
    scan_confirmations Sample.parser Sample.batch (load_jobs_df None) =
      Py.Ok (mkDataFrame (columns (load_jobs_df None))
               (rows (load_jobs_df None) ++ inserted)) /\
    NoDup (map dedup_key inserted).
Proof.
  split; [exact ledger_no_file |].
  destruct (scan_confirmations_inserts_once Sample.parser Sample.batch
              (load_jobs_df None) ledger_no_file)
    as (inserted & Hrun & Hnd & _).
  exists inserted. split; assumption.
Defined.

(** The scenario of the specification: a confirmation on the empty
    ledger, then a rejection with the same subject. *)
Example confirmation_then_rejection :
  exists df : DataFrame,
    (df1 ← scan_confirmations Sample.parser [Sample.confirmation] (load_jobs_df None);
     scan_rejections Sample.parser [Sample.rejection] df1) = Py.Ok df /\
    map (fun r : gmap string cell => (r !! "status", r !! "job_text")) (rows df) =
      [(Some (CStr "Rejected"),
        Some (CStr ("Thanks for applying" +:+ rejection_separator
                      +:+ "not moving forward")))].
Proof. eexists. split; vm_compute; reflexivity. Qed.

(** A second rejection of a record that is already "Rejected" keeps the
    status and adds one more snippet line. *)
Example rejection_twice :
  exists df : DataFrame,
    scan_rejections Sample.parser [Sample.rejection; Sample.rejection]
      Sample.two_rows = Py.Ok df /\
    map (fun r : gmap string cell => (r !! "status", r !! "job_text")) (rows df) =
      [(Some (CStr "Rejected"),
        Some (CStr ("Thanks for applying"
                      +:+ rejection_separator +:+ "not moving forward"
                      +:+ rejection_separator +:+ "not moving forward")));
       (Some (CStr "Applied"), Some (CStr "We received your application"))].
Proof. eexists. split; vm_compute; reflexivity. Qed.

(** An undated event is a duplicate of the undated row a pass inserted,
    but not of that row once its empty date was read back as NaN. *)
Example undated_after_reload :
  confirmation_step Sample.parser Sample.two_rows Sample.undated
    = Py.Ok Sample.two_rows /\
  exists df : DataFrame,
    confirmation_step Sample.parser Sample.reloaded Sample.undated = Py.Ok df /\
    length (rows df) = 3.
Proof. split; [| eexists; split]; vm_compute; reflexivity. Qed.

(** The batch with a repeated confirmation inserts two rows, not three. *)
Example batch_inserts_two :
  exists df : DataFrame,
    scan_confirmations Sample.parser Sample.batch (load_jobs_df None) = Py.Ok df /\
    map dedup_key (rows df) =
      [key_of "Software Engineer" "2024-01-10"; key_of "Data Analyst" ""].
Proof. eexists. split; vm_compute; reflexivity. Qed.

Lemma parse_date_never_fails_witness :
  parse_date Sample.parser "yesterday" = "" /\
  parse_date Sample.parser "Wed, 10 Jan 2024 23:30:00 -0800" = "2024-01-10".
Proof.
  destruct (parse_date_never_fails Sample.parser) as (Hraise & Hok & _).
  split.
  - apply (Hraise "yesterday" Py.ValueError). reflexivity.
  - destruct (Hok "Wed, 10 Jan 2024 23:30:00 -0800"
                (mkDatetime 2024 1 10 23 30 0 (Some (-480)%Z)) eq_refl) as [Hiso _].
    exact Hiso.
Defined.

(* ===================================================================== *)
(** ** Loading the ledger                                                 *)
(* ===================================================================== *)

Section LoadSpec.

Implicit Types (df : DataFrame) (r : gmap string cell).

Lemma setitem_fresh_wf col v df :
  col ∉ columns df -> wf df -> wf (setitem col v df).
Proof.
  intros Hcol Hwf. unfold wf, setitem in *. simpl.
  rewrite bool_decide_eq_false_2 by done.
  apply Forall_fmap. eapply Forall_impl; [exact Hwf |].
  intros r Hr. simpl. rewrite dom_insert_L, Hr, list_to_set_app_L. simpl.
  set_solver.
Qed.

(** The loop of [load_jobs_df] over any list of wanted columns. *)
Lemma ensure_columns_spec (wanted : list string) df :
  let df' :=
    fold_left
      (fun (df : DataFrame) (col : string) =>
         if bool_decide (col ∉ columns df) then setitem col (CStr "") df else df)
      wanted df in
  (forall c, c ∈ columns df' <-> c ∈ columns df \/ c ∈ wanted) /\
  (wf df -> wf df') /\
  length (rows df') = length (rows df) /\
  (forall i r, rows df !! i = Some r ->
     exists r', rows df' !! i = Some r' /\
       forall c, r' !! c =
         if bool_decide (c ∈ columns df) then r !! c
         else if bool_decide (c ∈ wanted) then Some (CStr "")
         else r !! c).
Proof.
  revert df. induction wanted as [| col wanted IH]; intros df; cbv zeta.
  - simpl. split; [intros c; rewrite elem_of_nil; tauto |].
    split; [done |]. split; [done |].
    intros i r Hi. exists r. split; [done |]. intros c.
    by repeat case_bool_decide.
  - simpl fold_left.
    case_bool_decide as Hcol.
    + specialize (IH (setitem col (CStr "") df)). cbv zeta in IH.
      destruct IH as (Hc & Hw & Hlen & Hrows).
      assert (Hcols1 : columns (setitem col (CStr "") df) = columns df ++ [col])
        by (unfold setitem; simpl; by rewrite bool_decide_eq_false_2).
      rewrite Hcols1 in Hc, Hrows.
      split; [| split; [| split]].
      * intros c. rewrite Hc, elem_of_app, list_elem_of_singleton, elem_of_cons. tauto.
      * intros Hwf. apply Hw. by apply setitem_fresh_wf.
      * rewrite Hlen. unfold setitem. simpl. by rewrite length_map.
      * intros i r Hi.
        destruct (Hrows i (<[col := CStr ""]> r)) as (r' & Hr' & Hlook).
        { unfold setitem. simpl. by rewrite list_lookup_fmap, Hi. }
        exists r'. split; [done |]. intros c. rewrite Hlook.
        destruct (decide (c = col)) as [-> | Hne].
        -- rewrite bool_decide_eq_true_2 by (apply elem_of_app; right; by left).
           rewrite (bool_decide_eq_false_2 (col ∈ columns df)) by done.
           rewrite (bool_decide_eq_true_2 (col ∈ col :: wanted)) by (by left).
           apply lookup_insert_eq.
        -- rewrite !lookup_insert_ne by done.
           destruct (decide (c ∈ columns df)) as [Hin | Hin].
           ++ rewrite bool_decide_eq_true_2 by (apply elem_of_app; by left).
              by rewrite bool_decide_eq_true_2.
           ++ rewrite bool_decide_eq_false_2.
              2:{ rewrite elem_of_app, list_elem_of_singleton. tauto. }
              rewrite (bool_decide_eq_false_2 (c ∈ columns df)) by done.
              destruct (decide (c ∈ wanted)) as [Hw' | Hw'].
              ** rewrite !bool_decide_eq_true_2; [done | by right | done].
              ** rewrite !bool_decide_eq_false_2; [done | | done].
                 rewrite elem_of_cons. tauto.
    + specialize (IH df). cbv zeta in IH.
      destruct IH as (Hc & Hw & Hlen & Hrows).
      split; [| split; [| split]]; try done.
      * intros c. rewrite Hc, elem_of_cons.
        split; [tauto |]. intros [? | [-> | ?]]; tauto.
      * intros i r Hi. destruct (Hrows i r Hi) as (r' & Hr' & Hlook).
        exists r'. split; [done |]. intros c. rewrite Hlook.
        case_bool_decide as Hin; [done |].
        assert (c <> col) by (by intros ->).
        destruct (decide (c ∈ wanted)) as [Hw' | Hw'].
        -- rewrite !bool_decide_eq_true_2; [done | by right | done].
        -- rewrite !bool_decide_eq_false_2; [done | | done].
           rewrite elem_of_cons. tauto.
Qed.

(** C8: whatever frame [read_csv] produced for the ledger file,
    [load_jobs_df] returns a ledger with the nine schema columns in which
    every record has a cell under each of them; it has the records of the
    file, each with its cells under the file's columns kept and the empty
    string under every schema column the file lacked, so a file without a
    salary column loads with salary "" on every record; without a file the
    result is the empty frame over exactly the nine columns. *)
Theorem load_jobs_df_schema (file : option DataFrame) :
  (forall csv, file = Some csv -> wf csv) ->
  let df := load_jobs_df file in
  ledger df /\
  Forall (fun r => Forall (fun c => is_Some (r !! c)) expected_columns) (rows df) /\
  (forall csv, file = Some csv ->
     length (rows df) = length (rows csv) /\
     (forall c, c ∈ columns df <-> c ∈ columns csv \/ c ∈ expected_columns) /\
     (forall i r, rows csv !! i = Some r ->
        exists r', rows df !! i = Some r' /\
          (forall c, c ∈ columns csv -> r' !! c = r !! c) /\
          (forall c, c ∈ expected_columns -> c ∉ columns csv ->
             r' !! c = Some (CStr ""))) /\
     ("salary" ∉ columns csv ->
        Forall (fun r' => r' !! "salary" = Some (CStr "")) (rows df))) /\
  (file = None ->
     df = empty_frame expected_columns /\
     rows df = [] /\ columns df = expected_columns).
Proof.
  intros Hfile df. destruct file as [csv |].
  - pose proof (ensure_columns_spec expected_columns csv) as Hspec.
    cbv zeta in Hspec. subst df. unfold load_jobs_df.
    match goal with
    | |- context [fold_left ?f ?l csv] => set (df := fold_left f l csv) in *
    end.
    destruct Hspec as (Hc & Hw & Hlen & Hrows).
    assert (Hl : ledger df).
    { split; [by apply Hw, Hfile |]. unfold schema_complete. apply Forall_forall.
      intros c Hin. apply Hc. by right. }
    assert (Hrow : forall i r, rows csv !! i = Some r ->
              exists r', rows df !! i = Some r' /\
                (forall c, c ∈ columns csv -> r' !! c = r !! c) /\
                (forall c, c ∈ expected_columns -> c ∉ columns csv ->
                   r' !! c = Some (CStr ""))).
    { intros i r Hi. destruct (Hrows i r Hi) as (r' & Hr' & Hlook).
      exists r'. split; [done |]. split; intros c Hin.
      - by rewrite Hlook, bool_decide_eq_true_2.
      - intros Hout. rewrite Hlook, bool_decide_eq_false_2 by done.
        by rewrite bool_decide_eq_true_2. }
    split; [exact Hl |]. split; [| split; [| done]].
    + apply Forall_forall. intros r Hr. apply Forall_forall. intros c Hin.
      apply (wf_row df r c); [apply Hl | done |].
      by apply (schema_column df c); [apply Hl |].
    + intros csv' [= <-].
      split; [done |]. split; [done |]. split; [exact Hrow |].
      intros Hsal. apply Forall_forall. intros r' Hr'.
      apply list_elem_of_lookup in Hr' as [i Hi].
      destruct (lookup_lt_is_Some_2 (rows csv) i) as [r Hr].
      { rewrite <- Hlen. by apply lookup_lt_Some in Hi. }
      destruct (Hrow i r Hr) as (r'' & Hr'' & _ & Hnew).
      assert (r'' = r') by congruence. subst r''.
      apply Hnew; [| done]. do 8 right. by left.
  - split; [| split; [constructor | split; [done |]]].
    + split; [constructor |]. unfold schema_complete.
      apply Forall_forall. intros c Hc. exact Hc.
    + intros _. by vm_compute.
Qed.

End LoadSpec.

Lemma wf_old_file : forall csv, Some Sample.old_file = Some csv -> wf csv.
Proof.
  intros csv [= <-]. unfold wf. repeat constructor; vm_compute; reflexivity.
Defined.

Lemma load_jobs_df_schema_witness :
  (forall csv, Some Sample.old_file = Some csv -> wf csv) /\
  ledger (load_jobs_df (Some Sample.old_file)) /\
  Forall (fun r' : gmap string cell => r' !! "salary" = Some (CStr ""))
    (rows (load_jobs_df (Some Sample.old_file))).
Proof.
  split; [exact wf_old_file |].
  destruct (load_jobs_df_schema (Some Sample.old_file) wf_old_file)
    as (Hl & _ & Hfile & _).
  split; [exact Hl |].
  destruct (Hfile Sample.old_file eq_refl) as (_ & _ & _ & Hsal).
  apply Hsal. vm_compute. intros Hin.
  repeat (apply elem_of_cons in Hin as [Hin | Hin]; [discriminate |]).
  by apply elem_of_nil in Hin.
Defined.

(* ===================================================================== *)
(** ** The backfill pass                                                  *)
(* ===================================================================== *)

Lemma strs_typed (l : list Py.scalar) :
  Forall is_str l -> Py.strs l = Py.Ok (str_elements l).
Proof.
  induction 1 as [| v l Hv _ IH]; [done |].
  destruct v; try done. simpl. rewrite IH. done.
Qed.

Lemma strs_untyped (l : list Py.scalar) :
  ~ Forall is_str l -> Py.strs l = Py.Raise Py.TypeError.
Proof.
  induction l as [| v l IH]; intros Hbad; [destruct Hbad; constructor |].
  destruct v; try done. simpl. rewrite IH; [done |].
  intros Hall. apply Hbad. by constructor.
Qed.

Lemma str_elements_SStr (l : list string) : str_elements (map Py.SStr l) = l.
Proof.
  induction l as [| s l IH]; [done |].
  change (s :: str_elements (map Py.SStr l) = s :: l). by rewrite IH.
Qed.




Section BackfillFacts.
Variable summarize_job : nat -> gmap string cell -> Py.Result Parsed.
Implicit Types (df : DataFrame) (row : gmap string cell) (p : Parsed).


Lemma try_body_Ok idx row p :
  summarize_job idx row = Py.Ok p -> skills_typed p ->
  try_body summarize_job idx row row = (enriched p row, Py.Ok tt).
Proof.
  intros Hp Hty.
  unfold try_body, mbind, Try_bind, try_bind, try_call, at_set. rewrite Hp.
  unfold enriched, skills_text, skills_typed in *.
  destruct (p_skills p) as [[l | v] |]; simpl.
  - unfold Py.join. rewrite (strs_typed l Hty). done.
  - done.
  - done.
Qed.
Lemma iterrows_loop_length (rs : list (gmap string cell)) idx u :
  length (iterrows_loop summarize_job idx rs u).1 = length rs.
Proof.
  revert idx u. induction rs as [| row rs IH]; intros idx u; [done |].
  simpl. destruct (has_summary row).
  - specialize (IH (S idx) u).
    destruct (iterrows_loop summarize_job (S idx) rs u). simpl in *. by rewrite IH.
  - destruct (try_body summarize_job idx row row) as [row' outcome].
    match goal with |- context [iterrows_loop _ _ _ ?u'] => specialize (IH (S idx) u') end.
    destruct (iterrows_loop summarize_job (S idx) rs _). simpl in *. by rewrite IH.
Qed.

Lemma iterrows_loop_lookup (rs : list (gmap string cell)) idx u i row :
  rs !! i = Some row ->
  (iterrows_loop summarize_job idx rs u).1 !! i =
    Some (if has_summary row then row
          else (try_body summarize_job (idx + i) row row).1).
Proof.
  revert idx u i. induction rs as [| r rs IH]; intros idx u i Hi; [done |].
  simpl. destruct (has_summary r) eqn:Hr.
  - specialize (IH (S idx) u).
    destruct (iterrows_loop summarize_job (S idx) rs u) as [rest n]. simpl in *.
    destruct i as [| i]; simpl in *.
    + injection Hi as <-. by rewrite Hr.
    + rewrite (IH i Hi). by replace (idx + S i) with (S idx + i) by lia.
  - destruct (try_body summarize_job idx r r) as [row' outcome] eqn:Hbody.
    match goal with |- context [iterrows_loop _ _ _ ?u'] => specialize (IH (S idx) u') end.
    destruct (iterrows_loop summarize_job (S idx) rs _) as [rest n]. simpl in *.
    destruct i as [| i]; simpl in *.
    + injection Hi as <-. rewrite Hr, Nat.add_0_r, Hbody. done.
    + rewrite (IH i Hi). by replace (idx + S i) with (S idx + i) by lia.
Qed.


Lemma process_jobs_rows df :
  rows (process_jobs summarize_job df).1 =
    (iterrows_loop summarize_job 0 (rows (ensure_enrichment_columns df)) 0).1.
Proof.
  unfold process_jobs.
  by destruct (iterrows_loop summarize_job 0 (rows (ensure_enrichment_columns df)) 0).
Qed.


Lemma process_jobs_columns df :
  columns (process_jobs summarize_job df).1 = columns (ensure_enrichment_columns df).
Proof.
  unfold process_jobs.
  by destruct (iterrows_loop summarize_job 0 (rows (ensure_enrichment_columns df)) 0).
Qed.

End BackfillFacts.



(** C7: for an eligible record that the summarizer answers within its
    interface, the pass stores the returned summary and salary as they
    are, stores under skills the elements of a returned list joined by
    ", " in their order or the string form of a returned scalar, keeps
    every other field, and the loop continues with the counter one
    higher. *)
Theorem backfill_success
    (summarize_job : nat -> gmap string cell -> Py.Result Parsed) (df : DataFrame)
    (i : nat) (row : gmap string cell) (p : Parsed) :
  rows (ensure_enrichment_columns df) !! i = Some row ->
  has_summary row = false ->
  summarize_job i row = Py.Ok p ->
  skills_typed p ->
  exists row' : gmap string cell,
    rows (process_jobs summarize_job df).1 !! i = Some row' /\
    row' !! "summary" = Some (CStr (default "" (p_summary p))) /\
    (forall l : list string,
       p_skills p = Some (SkList (map Py.SStr l)) ->
       row' !! "skills" = Some (CStr (String.concat ", " l))) /\
    (forall v : Py.scalar,
       p_skills p = Some (SkScalar v) ->
       row' !! "skills" = Some (CStr (Py.str v))) /\
    row' !! "salary" = Some (CStr (default "" (p_salary p))) /\
    (forall c : string,
       c <> "summary" -> c <> "skills" -> c <> "salary" -> row' !! c = row !! c) /\
    (forall (rest : list (gmap string cell)) (updated : nat),
       iterrows_loop summarize_job i (row :: rest) updated =
         (row' :: (iterrows_loop summarize_job (S i) rest (S updated)).1,
          (iterrows_loop summarize_job (S i) rest (S updated)).2)).
Proof.
  intros Hi Hs Hp Hty. exists (enriched p row).
  split.
  { rewrite process_jobs_rows, (iterrows_loop_lookup _ _ _ _ _ _ Hi), Hs. simpl.
    by rewrite (try_body_Ok _ _ _ p Hp Hty). }
  unfold enriched.
  split; [rewrite !lookup_insert_ne by done; by rewrite lookup_insert_eq |].
  split.
  { intros l Hl. rewrite lookup_insert_ne by done. rewrite lookup_insert_eq.
    unfold skills_text. rewrite Hl. simpl. by rewrite str_elements_SStr. }
  split.
  { intros v Hv. rewrite lookup_insert_ne by done. rewrite lookup_insert_eq.
    unfold skills_text. by rewrite Hv. }
  split; [by rewrite lookup_insert_eq |].
  split; [intros c ? ? ?; by rewrite !lookup_insert_ne |].
  intros rest updated. simpl. rewrite Hs, (try_body_Ok _ _ _ p Hp Hty).
  by destruct (iterrows_loop summarize_job (S i) rest (S updated)).
Qed.



Lemma typed_summarizer_typed :
  forall idx row p, Sample.typed_summarizer idx row = Py.Ok p -> skills_typed p.
Proof.
  intros [| [| idx]] row p; simpl; intros [= <-]; unfold skills_typed; simpl.
  - repeat constructor.
  - exact I.
Defined.


Lemma backfill_success_witness :
  rows (ensure_enrichment_columns Sample.three_rows) !! 0 = Some Sample.first_row /\
  has_summary Sample.first_row = false /\
  exists row' : gmap string cell,
    rows (process_jobs Sample.typed_summarizer Sample.three_rows).1 !! 0 = Some row' /\
    row' !! "summary" = Some (CStr "Builds backend services.") /\
    row' !! "skills" = Some (CStr "Go, SQL, APIs") /\
    row' !! "salary" = Some (CStr "unknown").
Proof.
  split; [reflexivity |]. split; [reflexivity |].
  destruct (backfill_success Sample.typed_summarizer Sample.three_rows 0
              Sample.first_row
              (mkParsed (Some "Builds backend services.")
                 (Some (SkList [Py.SStr "Go"; Py.SStr "SQL"; Py.SStr "APIs"]))
                 (Some "unknown"))
              eq_refl eq_refl eq_refl
              (typed_summarizer_typed 0 Sample.first_row _ eq_refl))
    as (row' & Hrow & Hsum & Hlist & _ & Hsal & _).
  exists row'. split; [exact Hrow |]. split; [exact Hsum |].
  split; [exact (Hlist ["Go"; "SQL"; "APIs"] eq_refl) | exact Hsal].
Defined.

(** Outside the interface: when the answer's skills list holds an element
    that is not a string, [join] raises after the summary was written;
    the row keeps the new summary, nothing else is written and the
    counter stays. *)
Remark try_body_untyped_list
    (summarize_job : nat -> gmap string cell -> Py.Result Parsed)
    (idx : nat) (row : gmap string cell) (p : Parsed) (l : list Py.scalar) :
  summarize_job idx row = Py.Ok p ->
  p_skills p = Some (SkList l) ->
  ~ Forall is_str l ->
  try_body summarize_job idx row row =
    (<["summary" := CStr (default "" (p_summary p))]> row, Py.Raise Py.TypeError).
Proof.
  intros Hp Hl Hbad.
  pose proof (strs_untyped l Hbad) as Hstrs.
  unfold try_body, mbind, Try_bind, try_bind, try_call, at_set.
  rewrite Hp, Hl. simpl. unfold Py.join. by rewrite Hstrs.
Qed.

Example untyped_answer_partial_write :
  process_jobs Sample.summarizer
    (mkDataFrame expected_columns
       [Sample.summarized_row; Sample.summarized_row; Sample.second_row]) =
  (mkDataFrame expected_columns
     [Sample.summarized_row; Sample.summarized_row;
      <["summary" := CStr "Analyses sales data."]> Sample.second_row],
   0).
Proof. vm_compute. reflexivity. Qed.

(* ===================================================================== *)
(** ** Reading headers                                                    *)
(* ===================================================================== *)

Lemma get_header_no_answer (headers : list Header) (name : string) :
  Forall (fun h => ~ answers_to name h) headers -> get_header headers name = "".
Proof.
  induction 1 as [| h headers Hh _ IH]; [done |].
  simpl. destruct (String.eqb_spec (Py.lower (default "" (h_name h))) (Py.lower name));
    [by destruct Hh | exact IH].
Qed.

(** X1: the header name is compared without regard to case: two names
    with the same lower-case form read the same value from any list of
    headers. *)
Theorem get_header_case_insensitive (headers : list Header) (name name' : string) :
  Py.lower name = Py.lower name' ->
  get_header headers name = get_header headers name'.
Proof.
  intros Hn. induction headers as [| h headers IH]; [done |].
  simpl. by rewrite Hn, IH.
Qed.

Lemma get_header_case_insensitive_witness :
  Py.lower "SUBJECT" = Py.lower "Subject" /\
  get_header Sample2.doubled_subject "SUBJECT"
    = get_header Sample2.doubled_subject "Subject".
Proof.
  split; [reflexivity |].
  apply (get_header_case_insensitive Sample2.doubled_subject "SUBJECT" "Subject").
  reflexivity.
Defined.

(** X2: the first header that answers to the name decides: its value is
    returned, the empty string if it has none, whatever headers follow;
    and when no header answers to the name the result is the empty
    string. *)
Theorem get_header_first_match (name : string) (before after : list Header)
    (h : Header) :
  Forall (fun h' => ~ answers_to name h') before ->
  (answers_to name h ->
   get_header (before ++ h :: after) name = default "" (h_value h)) /\
  get_header before name = "".
Proof.
  intros Hbefore. split; [| by apply get_header_no_answer].
  intros Hh. induction Hbefore as [| h' before Hh' _ IH]; simpl.
  - unfold answers_to in Hh. by rewrite Hh, String.eqb_refl.
  - destruct (String.eqb_spec (Py.lower (default "" (h_name h'))) (Py.lower name));
      [by destruct Hh' | exact IH].
Qed.

Lemma from_does_not_answer :
  Forall (fun h' => ~ answers_to "subject" h')
    [mkHeader (Some "From") (Some "jobs@example.com")].
Proof. constructor; [| constructor]. vm_compute. discriminate. Defined.

Lemma get_header_first_match_witness :
  Forall (fun h' => ~ answers_to "subject" h')
    [mkHeader (Some "From") (Some "jobs@example.com")] /\
  get_header Sample2.doubled_subject "subject" = "".
Proof.
  split; [exact from_does_not_answer |].
  destruct (get_header_first_match "subject"
              [mkHeader (Some "From") (Some "jobs@example.com")]
              [mkHeader (Some "Subject") (Some "Software Engineer")]
              (mkHeader (Some "SUBJECT") None) from_does_not_answer) as [Hfirst _].
  apply Hfirst. reflexivity.
Defined.

(* ===================================================================== *)
(** ** Listing messages                                                   *)
(* ===================================================================== *)

Lemma gmail_search_loop_app (pages : list ListResponse) (messages : list MessageMeta) :
  gmail_search_loop pages messages =
    messages ++ List.concat (map (fun response => default [] (resp_messages response)) pages).
Proof.
  revert messages. induction pages as [| response pages IH]; intros messages; simpl.
  - by rewrite app_nil_r.
  - by rewrite IH, <- app_assoc.
Qed.

(** X3: [gmail_search] returns the entries of every page, page after
    page and in the order of each page; a page without the "messages" key
    adds nothing, and the total is the sum over the pages, not bounded by
    the page size asked for. *)
Theorem gmail_search_all_pages (first : ListResponse) (next : list ListResponse) :
  gmail_search first next =
    List.concat (map (fun response => default [] (resp_messages response)) (first :: next)) /\
  length (gmail_search first next) =
    sum_list (map (fun response => length (default [] (resp_messages response)))
                (first :: next)) /\
  (forall (response : ListResponse) (meta : MessageMeta),
     response ∈ first :: next ->
     meta ∈ default [] (resp_messages response) ->
     meta ∈ gmail_search first next).
Proof.
  assert (Heq : gmail_search first next =
            List.concat (map (fun response => default [] (resp_messages response))
                      (first :: next)))
    by (unfold gmail_search; by rewrite gmail_search_loop_app).
  split; [exact Heq |]. split.
  - rewrite Heq. generalize (first :: next). intros pages.
    induction pages as [| p pages IH]; [done |].
    simpl. by rewrite length_app, IH.
  - intros response meta Hin Hmeta. rewrite Heq.
    apply list_elem_of_In, in_concat. exists (default [] (resp_messages response)).
    split; [| by apply list_elem_of_In].
    apply in_map_iff. exists response. split; [done |]. by apply list_elem_of_In.
Qed.

Lemma gmail_search_all_pages_witness :
  mkListResponse None ∈ Sample2.first_page :: Sample2.more_pages /\
  gmail_search Sample2.first_page Sample2.more_pages
  = [mkMessageMeta "18c2a"; mkMessageMeta "18c2b"; mkMessageMeta "18c30"].
Proof.
  split; [right; left |].
  exact (proj1 (gmail_search_all_pages Sample2.first_page Sample2.more_pages)).
Defined.

(* ===================================================================== *)
(** ** Loading, again                                                     *)
(* ===================================================================== *)

Lemma ensure_columns_present (wanted : list string) (df : DataFrame) :
  Forall (fun c => c ∈ columns df) wanted ->
  fold_left
    (fun (df : DataFrame) (col : string) =>
       if bool_decide (col ∉ columns df) then setitem col (CStr "") df else df)
    wanted df = df.
Proof.
  induction 1 as [| col wanted Hcol _ IH]; [done |].
  simpl. rewrite bool_decide_eq_false_2; [exact IH | by intros Hn].
Qed.

Lemma load_jobs_df_complete (file : option DataFrame) :
  schema_complete (load_jobs_df file).
Proof.
  unfold schema_complete, load_jobs_df. apply Forall_forall. intros c Hc.
  match goal with
  | |- c ∈ columns (fold_left ?f ?l ?d) =>
      destruct (ensure_columns_spec l d) as (Hcols & _)
  end.
  apply Hcols. by right.
Qed.

(** X4: loading is the identity on a frame that already has the nine
    columns, whatever other columns it has, and so loading what
    [load_jobs_df] returned returns it again. *)
Theorem load_jobs_df_idempotent (file : option DataFrame) :
  (forall df : DataFrame, schema_complete df -> load_jobs_df (Some df) = df) /\
  load_jobs_df (Some (load_jobs_df file)) = load_jobs_df file.
Proof.
  assert (Hid : forall df : DataFrame, schema_complete df -> load_jobs_df (Some df) = df).
  { intros df Hs. unfold load_jobs_df. by apply ensure_columns_present. }
  split; [exact Hid |]. apply Hid, load_jobs_df_complete.
Qed.

Lemma schema_complete_two_rows : schema_complete Sample.two_rows.
Proof. apply Forall_forall. intros c Hc. exact Hc. Defined.

Lemma load_jobs_df_idempotent_witness :
  schema_complete Sample.two_rows /\
  load_jobs_df (Some Sample.two_rows) = Sample.two_rows.
Proof.
  split; [exact schema_complete_two_rows |].
  exact (proj1 (load_jobs_df_idempotent None) Sample.two_rows schema_complete_two_rows).
Defined.

Lemma filter_missing_snoc (cols wanted : list string) (c : string) :
  c ∉ wanted ->
  filter (fun x => x ∉ cols ++ [c]) wanted = filter (fun x => x ∉ cols) wanted.
Proof.
  intros Hc. induction wanted as [| w wanted IH]; [done |].
  apply not_elem_of_cons in Hc as [Hne Hc].
  destruct (decide (w ∈ cols)) as [Hw | Hw].
  - rewrite !filter_cons_False; [by apply IH | by intros Hn |].
    intros Hn. apply Hn, elem_of_app. by left.
  - rewrite !filter_cons_True; [by rewrite IH | done |].
    rewrite elem_of_app, list_elem_of_singleton. intros [? | ?]; congruence.
Qed.

Lemma ensure_columns_order (wanted : list string) (df : DataFrame) :
  NoDup wanted ->
  columns
    (fold_left
       (fun (df : DataFrame) (col : string) =>
          if bool_decide (col ∉ columns df) then setitem col (CStr "") df else df)
       wanted df)
  = columns df ++ filter (fun c => c ∉ columns df) wanted.
Proof.
  intros Hnd. revert df. induction Hnd as [| col wanted Hcol _ IH]; intros df.
  - simpl. by rewrite app_nil_r.
  - simpl fold_left. case_bool_decide as Hin.
    + rewrite IH. unfold setitem. simpl.
      rewrite bool_decide_eq_false_2 by done.
      rewrite filter_cons_True by done.
      rewrite <- app_assoc. simpl. by rewrite filter_missing_snoc.
    + rewrite IH. rewrite filter_cons_False; [done |]. by intros Hn.
Qed.

(** X5: the loaded frame has the columns of the file first, in the file's
    order and with the columns the schema does not know kept, and after
    them the schema columns the file lacked, in schema order. *)
Theorem load_jobs_df_column_order (csv : DataFrame) :
  columns (load_jobs_df (Some csv)) =
    columns csv ++ filter (fun c => c ∉ columns csv) expected_columns.
Proof.
  unfold load_jobs_df. apply ensure_columns_order.
  unfold expected_columns. repeat (constructor; [set_solver |]). constructor.
Qed.

Example load_foreign_file :
  columns (load_jobs_df (Some Sample2.foreign_file)) =
    ["notes"; "salary"; "role_title"; "company"; "job_link"; "applied_date";
     "status"; "job_text"; "summary"; "skills"].
Proof. vm_compute. reflexivity. Qed.

(* ===================================================================== *)
(** ** First occurrences                                                  *)
(* ===================================================================== *)

Section FirstSeen.

Context {A : Type} `{EqDecision A}.

Implicit Types (seen xs : list A).

Lemma first_seen_ext seen seen' xs :
  (forall x, x ∈ seen <-> x ∈ seen') -> first_seen seen xs = first_seen seen' xs.
Proof.
  revert seen seen'. induction xs as [| x xs IH]; intros seen seen' Heq; [done |].
  simpl. destruct (decide (x ∈ seen)) as [Hin | Hin], (decide (x ∈ seen')) as [Hin' | Hin'].
  - by apply IH.
  - destruct Hin'. by apply Heq.
  - destruct Hin. by apply Heq.
  - f_equal. apply IH. intros y. rewrite !elem_of_cons. by rewrite Heq.
Qed.

Lemma elem_of_first_seen seen xs x :
  x ∈ first_seen seen xs <-> x ∈ xs /\ x ∉ seen.
Proof.
  revert seen. induction xs as [| y xs IH]; intros seen; simpl.
  - rewrite elem_of_nil. tauto.
  - destruct (decide (y ∈ seen)) as [Hin | Hin].
    + rewrite IH, elem_of_cons. split; [tauto |].
      intros [[-> | Hx] Hn]; [done | tauto].
    + rewrite elem_of_cons, IH, !elem_of_cons. split.
      * intros [-> | [Hx Hn]]; [tauto |]. split; [tauto |]. tauto.
      * intros [[-> | Hx] Hn]; [tauto |].
        destruct (decide (x = y)) as [-> | Hne]; [tauto |]. right. tauto.
Qed.

Lemma NoDup_first_seen seen xs : NoDup (first_seen seen xs).
Proof.
  revert seen. induction xs as [| y xs IH]; intros seen; simpl; [constructor |].
  destruct (decide (y ∈ seen)); [apply IH |].
  constructor; [| apply IH].
  rewrite elem_of_first_seen, elem_of_cons. tauto.
Qed.

Lemma length_first_seen seen xs : length (first_seen seen xs) <= length xs.
Proof.
  revert seen. induction xs as [| y xs IH]; intros seen; simpl; [lia |].
  destruct (decide (y ∈ seen)); simpl; [specialize (IH seen) | specialize (IH (y :: seen))]; lia.
Qed.

Lemma first_seen_all_seen seen xs :
  Forall (fun x => x ∈ seen) xs -> first_seen seen xs = [].
Proof.
  induction 1 as [| x xs Hx _ IH]; [done |].
  simpl. by destruct (decide (x ∈ seen)).
Qed.

Lemma first_seen_Permutation seen xs ys :
  xs ≡ₚ ys -> first_seen seen xs ≡ₚ first_seen seen ys.
Proof.
  intros Hp. apply NoDup_Permutation; try apply NoDup_first_seen.
  intros x. rewrite !elem_of_first_seen. by rewrite Hp.
Qed.

End FirstSeen.

(* ===================================================================== *)
(** ** The confirmation pass, again                                       *)
(* ===================================================================== *)

Section ConfirmationExtras.

Variable parsedate_to_datetime : string -> Py.Result datetime.


Implicit Types (df : DataFrame) (r : gmap string cell) (msg : Message).

Lemma scan_confirmations_first_seen (messages : list Message) df :
  ledger df ->
  exists inserted : list (gmap string cell),
    scan_confirmations parsedate_to_datetime messages df =
      Py.Ok (mkDataFrame (columns df) (rows df ++ inserted)) /\
    map dedup_key inserted =
      first_seen (map dedup_key (rows df)) (map (event_key parsedate_to_datetime) messages).
Proof.
  revert df. induction messages as [| msg messages IH]; intros df Hl.
  - exists []. rewrite app_nil_r. by destruct df.
  - simpl.
    destruct (confirmation_step_cases parsedate_to_datetime df msg Hl)
      as [[Hex ->] | [Hex ->]].
    + destruct (IH df Hl) as (ins & Hrun & Hkeys).
      exists ins. split; [exact Hrun |].
      apply Exists_keyed_elem in Hex.
      unfold event_key at 1. by rewrite decide_True.
    + set (r0 := appended df (sender_of msg) (subject_of msg)
                   (parse_date parsedate_to_datetime (date_header_of msg)) "Applied" (snippet_of msg)) in *.
      pose proof (ledger_append df (sender_of msg) (subject_of msg)
                    (parse_date parsedate_to_datetime (date_header_of msg)) "Applied" (snippet_of msg) Hl)
        as Hl1.
      fold r0 in Hl1.
      destruct (IH _ Hl1) as (ins & Hrun & Hkeys).
      simpl in Hrun, Hkeys. rewrite <- app_assoc in Hrun. simpl in Hrun.
      exists (r0 :: ins). split; [exact Hrun |].
      rewrite Exists_keyed_elem in Hex.
      unfold event_key at 1. rewrite decide_False by done.
      simpl. f_equal; [apply appended_key |].
      rewrite Hkeys. apply first_seen_ext. intros k.
      rewrite map_app, elem_of_app, elem_of_cons. simpl.
      rewrite list_elem_of_singleton.
      replace (dedup_key r0)
        with (key_of (subject_of msg) (parse_date parsedate_to_datetime (date_header_of msg)))
        by (symmetry; apply appended_key).
      tauto.
Qed.

(** X6: the rows a confirmation pass appends carry, in order, the keys of
    the events that were neither in the ledger nor earlier in the batch;
    so the pass appends at most one row per event and leaves every row it
    found in place and unchanged. *)
Theorem scan_confirmations_keys (messages : list Message) (df : DataFrame) :
  ledger df ->
  exists inserted : list (gmap string cell),
    scan_confirmations parsedate_to_datetime messages df =
      Py.Ok (mkDataFrame (columns df) (rows df ++ inserted)) /\
    map dedup_key inserted =
      first_seen (map dedup_key (rows df))
        (map (event_key parsedate_to_datetime) messages) /\
    length inserted <= length messages.
Proof.
  intros Hl. destruct (scan_confirmations_first_seen messages df Hl)
    as (ins & Hrun & Hkeys).
  exists ins. split; [exact Hrun |]. split; [exact Hkeys |].
  rewrite <- (length_map dedup_key ins), Hkeys.
  etransitivity; [apply length_first_seen |]. by rewrite length_map.
Qed.

(** X7: the order of the events of a batch does not change which keys
    the ledger holds afterwards nor how many rows it has: two batches
    with the same events in different orders give ledgers whose key
    lists are permutations of each other. *)
Theorem scan_confirmations_order (messages messages' : list Message) (df : DataFrame) :
  ledger df ->
  messages ≡ₚ messages' ->
  exists df1 df2 : DataFrame,
    scan_confirmations parsedate_to_datetime messages df = Py.Ok df1 /\
    scan_confirmations parsedate_to_datetime messages' df = Py.Ok df2 /\
    map dedup_key (rows df1) ≡ₚ map dedup_key (rows df2) /\
    length (rows df1) = length (rows df2).
Proof.
  intros Hl Hp.
  destruct (scan_confirmations_first_seen messages df Hl) as (ins & Hrun & Hkeys).
  destruct (scan_confirmations_first_seen messages' df Hl) as (ins' & Hrun' & Hkeys').
  eexists _, _. split; [exact Hrun |]. split; [exact Hrun' |].
  assert (Hperm : map dedup_key (rows df ++ ins) ≡ₚ map dedup_key (rows df ++ ins')).
  { rewrite !map_app, Hkeys, Hkeys'. apply Permutation_app_head.
    apply first_seen_Permutation. by apply Permutation_map. }
  split; [exact Hperm |].
  apply Permutation_length in Hperm. by rewrite !length_map in Hperm.
Qed.

(** X8: on a frame without the title column a pass raises KeyError at
    its first event, and without the date column likewise; an empty batch
    reads no column and returns any frame as it is. *)
Theorem scan_confirmations_missing_column (df : DataFrame) (msg : Message)
    (rest : list Message) :
  scan_confirmations parsedate_to_datetime [] df = Py.Ok df /\
  ("role_title" ∉ columns df ->
   scan_confirmations parsedate_to_datetime (msg :: rest) df = Py.Raise (Py.KeyError "role_title")) /\
  ("role_title" ∈ columns df -> "applied_date" ∉ columns df ->
   scan_confirmations parsedate_to_datetime (msg :: rest) df = Py.Raise (Py.KeyError "applied_date")).
Proof.
  split; [done |]. split.
  - intros Ht. simpl. unfold confirmation_step, getitem.
    rewrite (bool_decide_eq_false_2 ("role_title" ∈ columns df)) by done.
    reflexivity.
  - intros Ht Hd. simpl. unfold confirmation_step, getitem.
    rewrite (bool_decide_eq_true_2 ("role_title" ∈ columns df)) by done.
    rewrite (bool_decide_eq_false_2 ("applied_date" ∈ columns df)) by done.
    reflexivity.
Qed.

End ConfirmationExtras.

(* ===================================================================== *)
(** ** The rejection pass                                                 *)
(* ===================================================================== *)

Lemma string_app_assoc (s t u : string) : (s +:+ t) +:+ u = s +:+ (t +:+ u).
Proof.
  induction s as [| c s IH]; [reflexivity |].
  change (String c ((s +:+ t) +:+ u) = String c (s +:+ (t +:+ u))). by rewrite IH.
Qed.

Lemma evolves_refl (r : gmap string cell) : evolves r r.
Proof. split; [done |]. split; by left. Qed.

Lemma evolves_trans (r1 r2 r3 : gmap string cell) :
  evolves r1 r2 -> evolves r2 r3 -> evolves r1 r3.
Proof.
  intros (Hc & Hs & Hj) (Hc' & Hs' & Hj'). split; [| split].
  - intros c H1 H2. by rewrite Hc', Hc.
  - destruct Hs' as [Hs' | Hs']; [| by right].
    rewrite Hs'. exact Hs.
  - destruct Hj' as [Hj' | (suffix' & Hj')].
    + rewrite Hj'. exact Hj.
    + right. destruct Hj as [Hj | (suffix & Hj)].
      * exists suffix'. rewrite Hj'. unfold at_col. by rewrite Hj.
      * exists (suffix +:+ suffix'). rewrite Hj'. unfold at_col at 1. rewrite Hj.
        simpl. by rewrite string_app_assoc.
Qed.

Lemma evolves_reject_row (subject snippet : string) (r : gmap string cell) :
  evolves r (reject_row subject snippet r).
Proof.
  unfold reject_row. destruct (eq_str _ _); [| apply evolves_refl].
  split; [| split].
  - intros c H1 H2. by rewrite !lookup_insert_ne.
  - right. rewrite lookup_insert_ne by done. apply lookup_insert_eq.
  - right. eexists. by rewrite lookup_insert_eq.
Qed.

Lemma titled_reject_row (title subject snippet : string) (r : gmap string cell) :
  titled title (reject_row subject snippet r) <-> titled title r.
Proof.
  unfold reject_row, titled. destruct (eq_str _ _); [| done].
  by rewrite !lookup_insert_ne.
Qed.

Lemma at_col_title_reject_row (subject snippet : string) (r : gmap string cell) :
  at_col "role_title" (reject_row subject snippet r) = at_col "role_title" r.
Proof.
  unfold reject_row, at_col. destruct (eq_str _ _); [| done].
  by rewrite !lookup_insert_ne.
Qed.

Lemma Exists_titled_elem (title : string) (rs : list (gmap string cell)) :
  Exists (titled title) rs <-> CStr title ∈ map (at_col "role_title") rs.
Proof.
  rewrite Exists_exists, list_elem_of_fmap. unfold titled.
  setoid_rewrite <- at_col_CStr.
  split; [intros (r & Hr & Hk) | intros (r & Hk & Hr)]; by exists r.
Qed.

Lemma reject_row_status (subject snippet : string) (r : gmap string cell) :
  titled subject r ->
  reject_row subject snippet r !! "status" = Some (CStr "Rejected").
Proof.
  intros Ht. unfold reject_row. apply at_col_CStr, eq_str_true in Ht.
  rewrite Ht. rewrite lookup_insert_ne by done. apply lookup_insert_eq.
Qed.

Lemma reject_row_other (subject snippet : string) (r : gmap string cell) :
  ~ titled subject r -> reject_row subject snippet r = r.
Proof.
  intros Ht. unfold reject_row. destruct (eq_str _ _) eqn:He; [| done].
  destruct Ht. by apply at_col_CStr, eq_str_true.
Qed.

Lemma at_col_insert (col : string) (v : cell) (r : gmap string cell) :
  at_col col (<[col := v]> r) = v.
Proof. unfold at_col. by rewrite lookup_insert_eq. Qed.

Lemma reject_row_weight (subject snippet : string) (r : gmap string cell) :
  String.length (cell_text (at_col "job_text" r))
  <= String.length (cell_text (at_col "job_text" (reject_row subject snippet r))) /\
  (titled subject r ->
   String.length (cell_text (at_col "job_text" r))
   < String.length (cell_text (at_col "job_text" (reject_row subject snippet r)))).
Proof.
  unfold reject_row. destruct (eq_str _ _) eqn:He.
  - rewrite at_col_insert. simpl.
    rewrite !string_length_app. unfold rejection_separator. simpl. lia.
  - split; [lia |]. intros Ht. apply at_col_CStr, eq_str_true in Ht. congruence.
Qed.

Lemma text_weight_reject (subject snippet : string) (cols : list string)
    (rs : list (gmap string cell)) :
  text_weight (mkDataFrame cols rs)
  <= text_weight (mkDataFrame cols (map (reject_row subject snippet) rs)) /\
  (Exists (titled subject) rs ->
   text_weight (mkDataFrame cols rs)
   < text_weight (mkDataFrame cols (map (reject_row subject snippet) rs))).
Proof.
  unfold text_weight. simpl. induction rs as [| r rs [IHle IHlt]]; simpl.
  - split; [lia |]. by inversion 1.
  - destruct (reject_row_weight subject snippet r) as [Hle Hlt].
    split; [lia |]. intros Hex. apply Exists_cons in Hex as [Hr | Hrs].
    + specialize (Hlt Hr). lia.
    + specialize (IHlt Hrs). lia.
Qed.

Lemma text_weight_append (cols : list string) (rs : list (gmap string cell))
    (r : gmap string cell) :
  text_weight (mkDataFrame cols rs) < text_weight (mkDataFrame cols (rs ++ [r])).
Proof.
  unfold text_weight. simpl. induction rs as [| r' rs IH]; simpl; lia.
Qed.

Section RejectionExtras.

Variable parsedate_to_datetime : string -> Py.Result datetime.

Implicit Types (df : DataFrame) (r : gmap string cell) (msg : Message).

(** What one rejection does to a ledger. *)
Lemma rejection_step_effect df msg :
  ledger df ->
  exists df' : DataFrame,
    rejection_step parsedate_to_datetime df msg = Py.Ok df' /\
    ledger df' /\
    columns df' = columns df /\
    length (rows df') =
      length (rows df)
      + length (first_seen (map (at_col "role_title") (rows df))
                  [CStr (subject_of msg)]) /\
    (forall c, c ∈ map (at_col "role_title") (rows df') <->
               c ∈ map (at_col "role_title") (rows df) \/ c = CStr (subject_of msg)) /\
    (forall i r, rows df !! i = Some r ->
       exists r', rows df' !! i = Some r' /\ evolves r r') /\
    all_rejected (subject_of msg) df' /\
    (forall title, all_rejected title df -> all_rejected title df') /\
    text_weight df < text_weight df'.
Proof.
  intros Hl.
  destruct (rejection_step_cases parsedate_to_datetime df msg Hl)
    as [[Hex Hstep] | [Hex Hstep]]; eexists; (split; [exact Hstep |]).
  - split; [by apply ledger_reject |]. split; [done |]. simpl.
    pose proof Hex as Hin. apply Exists_titled_elem in Hin.
    split; [simpl; rewrite decide_True by done; simpl; rewrite length_map; lia |].
    assert (Htitles : map (at_col "role_title")
                        (map (reject_row (subject_of msg) (snippet_of msg)) (rows df))
                      = map (at_col "role_title") (rows df)).
    { rewrite map_map. apply map_ext. intros r. apply at_col_title_reject_row. }
    split; [intros c; rewrite Htitles; split; [tauto | intros [? | ->]; done] |].
    split.
    { intros i r Hi. eexists. rewrite list_lookup_fmap, Hi. simpl.
      split; [done |]. apply evolves_reject_row. }
    split.
    { split; simpl.
      - apply Exists_exists in Hex as (r & Hr & Ht).
        apply Exists_exists. exists (reject_row (subject_of msg) (snippet_of msg) r).
        split; [by apply list_elem_of_fmap_2 |]. by apply titled_reject_row.
      - apply Forall_forall. intros r' Hr' Ht.
        apply list_elem_of_fmap in Hr' as (r & -> & Hr).
        apply titled_reject_row in Ht. by apply reject_row_status. }
    split.
    { intros title [Hext Hall]. split; simpl.
      - apply Exists_exists in Hext as (r & Hr & Ht).
        apply Exists_exists. exists (reject_row (subject_of msg) (snippet_of msg) r).
        split; [by apply list_elem_of_fmap_2 |]. by apply titled_reject_row.
      - rewrite Forall_forall in Hall. apply Forall_forall. intros r' Hr' Ht.
        apply list_elem_of_fmap in Hr' as (r & -> & Hr).
        apply titled_reject_row in Ht.
        destruct (decide (titled (subject_of msg) r)) as [Hm | Hm].
        + by apply reject_row_status.
        + rewrite reject_row_other by done. by apply Hall. }
    destruct df as [cols rs]. by apply text_weight_reject.
  - set (r0 := appended df (sender_of msg) (subject_of msg)
                 (parse_date parsedate_to_datetime (date_header_of msg))
                 "Rejected" (snippet_of msg)) in *.
    pose proof (appended_fields df (sender_of msg) (subject_of msg)
                  (parse_date parsedate_to_datetime (date_header_of msg))
                  "Rejected" (snippet_of msg)) as Hf.
    cbv zeta in Hf. fold r0 in Hf. destruct Hf as (_ & Hti & _ & _ & Hst & _).
    split; [by apply ledger_append |]. split; [done |]. simpl.
    pose proof Hex as Hin. rewrite Exists_titled_elem in Hin.
    split; [simpl; rewrite decide_False by done; simpl; rewrite length_app; simpl; lia |].
    split.
    { intros c. rewrite map_app, elem_of_app. simpl. rewrite list_elem_of_singleton.
      replace (at_col "role_title" r0) with (CStr (subject_of msg))
        by (symmetry; by apply at_col_CStr).
      tauto. }
    split.
    { intros i r Hi. exists r. split; [| apply evolves_refl].
      rewrite lookup_app_l; [done |]. by apply lookup_lt_Some in Hi. }
    split.
    { split; simpl.
      - apply Exists_app. right. by apply Exists_cons_hd.
      - apply Forall_app. split.
        + apply Forall_forall. intros r Hr Ht. destruct Hex.
          apply Exists_exists. by exists r.
        + by apply Forall_singleton. }
    split.
    { intros title [Hext Hall]. split; simpl.
      - apply Exists_app. by left.
      - apply Forall_app. split; [done |]. apply Forall_singleton.
        intros Ht. unfold titled in Ht. rewrite Hti in Ht.
        injection Ht as <-. by destruct Hex. }
    destruct df as [cols rs]. apply text_weight_append.
Qed.

Lemma scan_rejections_effect (messages : list Message) df :
  ledger df ->
  exists df' : DataFrame,
    scan_rejections parsedate_to_datetime messages df = Py.Ok df' /\
    ledger df' /\
    columns df' = columns df /\
    length (rows df') =
      length (rows df)
      + length (first_seen (map (at_col "role_title") (rows df))
                  (map (fun msg => CStr (subject_of msg)) messages)) /\
    (forall c, c ∈ map (at_col "role_title") (rows df') <->
               c ∈ map (at_col "role_title") (rows df) \/
               c ∈ map (fun msg => CStr (subject_of msg)) messages) /\
    (forall i r, rows df !! i = Some r ->
       exists r', rows df' !! i = Some r' /\ evolves r r') /\
    (forall title,
       all_rejected title df \/ title ∈ map subject_of messages ->
       all_rejected title df') /\
    text_weight df + length messages <= text_weight df'.
Proof.
  revert df. induction messages as [| msg messages IH]; intros df Hl.
  - exists df. simpl. split; [done |]. split; [done |]. split; [done |].
    split; [lia |]. split; [intros c; rewrite elem_of_nil; tauto |].
    split; [intros i r Hi; exists r; split; [done | apply evolves_refl] |].
    split; [| lia]. intros title [H1 | H1]; [done | by apply elem_of_nil in H1].
  - destruct (rejection_step_effect df msg Hl)
      as (df1 & Hstep & Hl1 & Hcols1 & Hlen1 & Htitles1 & Hev1 & Hself1 & Hkeep1 & Hw1).
    destruct (IH df1 Hl1)
      as (df' & Hrun & Hl' & Hcols & Hlen & Htitles & Hev & Hrej & Hw).
    exists df'. simpl. rewrite Hstep. split; [exact Hrun |]. split; [exact Hl' |].
    split; [congruence |]. split; [| split; [| split; [| split]]].
    + rewrite Hlen, Hlen1. simpl.
      destruct (decide (CStr (subject_of msg) ∈ map (at_col "role_title") (rows df)))
        as [Hin | Hin]; simpl.
      * rewrite (first_seen_ext _ (map (at_col "role_title") (rows df))); [lia |].
        intros c. rewrite Htitles1. split; [intros [? | ->]; done | tauto].
      * rewrite (first_seen_ext _ (CStr (subject_of msg)
                                     :: map (at_col "role_title") (rows df))); [lia |].
        intros c. rewrite Htitles1, elem_of_cons. tauto.
    + intros c. rewrite Htitles, Htitles1, elem_of_cons. tauto.
    + intros i r Hi. destruct (Hev1 i r Hi) as (r1 & Hi1 & He1).
      destruct (Hev i r1 Hi1) as (r' & Hi' & He').
      exists r'. split; [done |]. by eapply evolves_trans.
    + intros title [Hall | Hin]; apply Hrej.
      * left. by apply Hkeep1.
      * apply elem_of_cons in Hin as [-> | Hin]; [by left | by right].
    + lia.
Qed.

(** X9: a rejection pass over a ledger raises nothing, keeps the columns,
    deletes no row and leaves every row it found at its index with every
    field but status and job_text unchanged, a status that is the old one
    or "Rejected", and a job_text that is the old one or the old text
    with something appended. *)
Theorem scan_rejections_frame (messages : list Message) (df : DataFrame) :
  ledger df ->
  exists df' : DataFrame,
    scan_rejections parsedate_to_datetime messages df = Py.Ok df' /\
    columns df' = columns df /\
    length (rows df) <= length (rows df') /\
    forall (i : nat) (r : gmap string cell),
      rows df !! i = Some r ->
      exists r' : gmap string cell, rows df' !! i = Some r' /\ evolves r r'.
Proof.
  intros Hl. destruct (scan_rejections_effect messages df Hl)
    as (df' & Hrun & _ & Hcols & Hlen & _ & Hev & _).
  exists df'. split; [exact Hrun |]. split; [exact Hcols |]. split; [lia | exact Hev].
Qed.

(** X10: after a rejection pass every event of the batch has left its
    mark: at least one row carries its subject and every row that carries
    it, whichever event or earlier run put it there, reads "Rejected". *)
Theorem scan_rejections_all_rejected (messages : list Message) (df : DataFrame) :
  ledger df ->
  exists df' : DataFrame,
    scan_rejections parsedate_to_datetime messages df = Py.Ok df' /\
    Forall (fun msg => all_rejected (subject_of msg) df') messages.
Proof.
  intros Hl. destruct (scan_rejections_effect messages df Hl)
    as (df' & Hrun & _ & _ & _ & _ & _ & Hrej & _).
  exists df'. split; [exact Hrun |].
  apply Forall_forall. intros msg Hmsg. apply Hrej. right.
  by apply list_elem_of_fmap_2.
Qed.

(** X11: a rejection pass adds one row for each distinct subject of the
    batch that no row of the ledger carried, and no other: a second
    rejection with the same unmatched subject finds the row the first one
    added. *)
Theorem scan_rejections_row_count (messages : list Message) (df : DataFrame) :
  ledger df ->
  exists df' : DataFrame,
    scan_rejections parsedate_to_datetime messages df = Py.Ok df' /\
    length (rows df') =
      length (rows df)
      + length (first_seen (map (at_col "role_title") (rows df))
                  (map (fun msg => CStr (subject_of msg)) messages)) /\
    length (rows df') <= length (rows df) + length messages.
Proof.
  intros Hl. destruct (scan_rejections_effect messages df Hl)
    as (df' & Hrun & _ & _ & Hlen & _).
  exists df'. split; [exact Hrun |]. split; [exact Hlen |].
  rewrite Hlen. apply Nat.add_le_mono_l.
  etransitivity; [apply length_first_seen |]. by rewrite length_map.
Qed.

(** X12: the rejection pass is not idempotent.  A pass over a batch that
    is not empty never returns the ledger it was given, and running the
    same batch again over its result adds no row but appends the snippets
    once more, so the result changes again. *)
Theorem scan_rejections_rerun (messages : list Message) (df : DataFrame) :
  ledger df ->
  messages <> [] ->
  exists once twice : DataFrame,
    scan_rejections parsedate_to_datetime messages df = Py.Ok once /\
    scan_rejections parsedate_to_datetime messages once = Py.Ok twice /\
    once <> df /\
    twice <> once /\
    length (rows twice) = length (rows once) /\
    text_weight once < text_weight twice.
Proof.
  intros Hl Hne.
  destruct (scan_rejections_effect messages df Hl)
    as (once & Hrun & Hl1 & _ & _ & Htitles & _ & _ & Hw).
  destruct (scan_rejections_effect messages once Hl1)
    as (twice & Hrun' & _ & _ & Hlen' & _ & _ & _ & Hw').
  assert (Hpos : 0 < length messages) by (destruct messages; [done | simpl; lia]).
  exists once, twice. split; [exact Hrun |]. split; [exact Hrun' |].
  split; [intros ->; lia |]. split; [intros ->; lia |]. split; [| lia].
  rewrite Hlen', first_seen_all_seen; [simpl; lia |].
  apply Forall_forall. intros c Hc. apply Htitles. by right.
Qed.

(** X13: a batch can be split: a pass over two batches one after the
    other is the pass over the first followed by the pass over the
    second, for confirmations and for rejections, an exception of the
    first pass ending the whole. *)
Theorem scan_batches_compose (first second : list Message) (df : DataFrame) :
  scan_confirmations parsedate_to_datetime (first ++ second) df =
    (df' ← scan_confirmations parsedate_to_datetime first df;
     scan_confirmations parsedate_to_datetime second df') /\
  scan_rejections parsedate_to_datetime (first ++ second) df =
    (df' ← scan_rejections parsedate_to_datetime first df;
     scan_rejections parsedate_to_datetime second df').
Proof.
  split; revert df; induction first as [| msg first IH]; intros df; try done; simpl.
  - destruct (confirmation_step parsedate_to_datetime df msg) as [df1 | e]; [apply IH | done].
  - destruct (rejection_step parsedate_to_datetime df msg) as [df1 | e]; [apply IH | done].
Qed.

End RejectionExtras.

(* ===================================================================== *)
(** ** The entry point of gmail_sync.py                                   *)
(* ===================================================================== *)

Lemma load_jobs_df_ledger (file : option DataFrame) :
  (forall csv, file = Some csv -> wf csv) -> ledger (load_jobs_df file).
Proof.
  intros Hfile. split; [| apply load_jobs_df_complete].
  unfold load_jobs_df.
  match goal with
  | |- wf (fold_left ?f ?l ?d) => destruct (ensure_columns_spec l d) as (_ & Hwf & _)
  end.
  apply Hwf. destruct file as [csv |]; [by apply Hfile | constructor].
Qed.

Lemma keyed_titled (title date : string) (r : gmap string cell) :
  keyed title date r -> titled title r.
Proof. by intros [Ht _]. Qed.

Section MainExtras.

Variable parsedate_to_datetime : string -> Py.Result datetime.

Implicit Types (df : DataFrame) (r : gmap string cell) (msg : Message).

Lemma scan_confirmations_effect (messages : list Message) df :
  ledger df ->
  exists df' : DataFrame,
    scan_confirmations parsedate_to_datetime messages df = Py.Ok df' /\
    ledger df' /\
    length (rows df) <= length (rows df') /\
    (forall i r, rows df !! i = Some r -> rows df' !! i = Some r) /\
    Forall (fun msg => Exists (titled (subject_of msg)) (rows df')) messages.
Proof.
  intros Hl.
  destruct (scan_confirmations_shape parsedate_to_datetime messages df Hl)
    as (ins & Hrun & Hl' & _ & _ & _ & Hrec).
  eexists. split; [exact Hrun |]. split; [exact Hl' |]. simpl.
  split; [rewrite length_app; lia |]. split.
  - intros i r Hi. rewrite lookup_app_l; [done |]. by apply lookup_lt_Some in Hi.
  - eapply Forall_impl; [exact Hrec |]. intros msg Hex.
    eapply Exists_impl; [exact Hex |]. intros r. apply keyed_titled.
Qed.

(** X14: whatever the mode and the mail, a run over a rectangular ledger
    file (or none) raises nothing and hands [save_jobs_df] a ledger with
    the nine columns that still has every loaded row at its index, with
    every field but status and job_text as loaded. *)
Theorem main_saves_ledger (mode : GmailSyncCli.Mode) (file : option DataFrame)
    (confirmations rejections : list Message) :
  (forall csv, file = Some csv -> wf csv) ->
  exists df : DataFrame,
    GmailSyncCli.main parsedate_to_datetime mode file confirmations rejections
      = Py.Ok df /\
    ledger df /\
    length (rows (load_jobs_df file)) <= length (rows df) /\
    forall (i : nat) (r : gmap string cell),
      rows (load_jobs_df file) !! i = Some r ->
      exists r' : gmap string cell, rows df !! i = Some r' /\ evolves r r'.
Proof.
  intros Hfile. pose proof (load_jobs_df_ledger file Hfile) as Hl.
  unfold GmailSyncCli.main. cbv zeta.
  generalize dependent (load_jobs_df file). intros df0 Hl.
  destruct (scan_confirmations_effect confirmations df0 Hl)
    as (df1 & Hrun1 & Hl1 & Hlen1 & Hkeep1 & _).
  destruct mode.
  - rewrite Hrun1. exists df1. split; [done |]. split; [done |]. split; [done |].
    intros i r Hi. exists r. split; [by apply Hkeep1 | apply evolves_refl].
  - destruct (scan_rejections_effect parsedate_to_datetime rejections df0 Hl)
      as (df2 & Hrun2 & Hl2 & _ & Hlen2 & _ & Hev2 & _).
    exists df2. cbn. rewrite Hrun2. split; [done |]. split; [done |].
    split; [lia | exact Hev2].
  - destruct (scan_rejections_effect parsedate_to_datetime rejections df1 Hl1)
      as (df2 & Hrun2 & Hl2 & _ & Hlen2 & _ & Hev2 & _).
    exists df2. rewrite Hrun1. cbn. rewrite Hrun2. split; [done |]. split; [done |].
    split; [lia |]. intros i r Hi. apply Hev2. by apply Hkeep1.
Qed.

(** X15: in the mode that runs both scans, the rejections see the rows
    the confirmations of the same run inserted: when every rejection has
    the subject of some confirmation of the run, the run ends with as
    many rows as the confirmation scan alone would leave, and every row
    carrying the subject of a rejection reads "Rejected". *)
Theorem main_scan_all_matches (file : option DataFrame)
    (confirmations rejections : list Message) :
  (forall csv, file = Some csv -> wf csv) ->
  Forall (fun msg => subject_of msg ∈ map subject_of confirmations) rejections ->
  exists df1 df2 : DataFrame,
    GmailSyncCli.main parsedate_to_datetime GmailSyncCli.ScanConfirmations
      file confirmations rejections = Py.Ok df1 /\
    GmailSyncCli.main parsedate_to_datetime GmailSyncCli.ScanAll
      file confirmations rejections = Py.Ok df2 /\
    length (rows df2) = length (rows df1) /\
    Forall (fun msg => all_rejected (subject_of msg) df2) rejections.
Proof.
  intros Hfile Hsub. pose proof (load_jobs_df_ledger file Hfile) as Hl.
  unfold GmailSyncCli.main. cbv zeta.
  generalize dependent (load_jobs_df file). intros df0 Hl.
  destruct (scan_confirmations_effect confirmations df0 Hl)
    as (df1 & Hrun1 & Hl1 & _ & _ & Hrec).
  destruct (scan_rejections_effect parsedate_to_datetime rejections df1 Hl1)
    as (df2 & Hrun2 & _ & _ & Hlen2 & _ & _ & Hrej & _).
  exists df1, df2. rewrite Hrun1. cbn. rewrite Hrun2.
  split; [done |]. split; [done |]. split.
  - rewrite Hlen2, first_seen_all_seen; [simpl; lia |].
    apply Forall_fmap. eapply Forall_impl; [exact Hsub |]. intros msg Hin. simpl.
    apply list_elem_of_fmap in Hin as (conf & Heq & Hconf).
    rewrite Forall_forall in Hrec. rewrite Heq.
    apply Exists_titled_elem. by apply Hrec.
  - apply Forall_forall. intros msg Hmsg. apply Hrej. right.
    by apply list_elem_of_fmap_2.
Qed.

End MainExtras.

(* ===================================================================== *)
(** ** The backfill pass, again                                           *)
(* ===================================================================== *)


Lemma setitem_columns (col : string) (v : cell) (df : DataFrame) (c : string) :
  c ∈ columns (setitem col v df) <-> c ∈ columns df \/ c = col.
Proof.
  unfold setitem. simpl. case_bool_decide as Hin.
  - split; [tauto | intros [? | ->]; done].
  - by rewrite elem_of_app, list_elem_of_singleton.
Qed.

Lemma ensure_step_columns (col : string) (df : DataFrame) (c : string) :
  c ∈ columns (if bool_decide (col ∉ columns df) then setitem col (CStr "") df else df)
  <-> c ∈ columns df \/ c = col.
Proof.
  case_bool_decide as Hin.
  - apply setitem_columns.
  - split; [tauto | intros [? | ->]; done].
Qed.

Lemma ensure_enrichment_columns_columns (df : DataFrame) (c : string) :
  c ∈ columns (ensure_enrichment_columns df) <->
  c ∈ columns df \/ c ∈ enrichment_columns.
Proof.
  unfold ensure_enrichment_columns, enrichment_columns.
  rewrite !ensure_step_columns, !elem_of_cons, elem_of_nil. tauto.
Qed.

Lemma ensure_step_wf (col : string) (df : DataFrame) :
  wf df ->
  wf (if bool_decide (col ∉ columns df) then setitem col (CStr "") df else df).
Proof.
  intros Hwf. case_bool_decide as Hin; [| done]. by apply setitem_fresh_wf.
Qed.

Lemma ensure_enrichment_columns_wf (df : DataFrame) :
  wf df -> wf (ensure_enrichment_columns df).
Proof.
  intros Hwf. unfold ensure_enrichment_columns.
  by do 3 apply ensure_step_wf.
Qed.

Section BackfillExtras.

Variable summarize_job : nat -> gmap string cell -> Py.Result Parsed.

Implicit Types (df : DataFrame) (row : gmap string cell) (p : Parsed).

(** What the try block can do to a row, whatever the summarizer does. *)
Lemma try_body_frame idx row :
  let row' := (try_body summarize_job idx row row).1 in
  (forall c, c ∉ enrichment_columns -> row' !! c = row !! c) /\
  (Forall (fun c => is_Some (row !! c)) enrichment_columns -> dom row' = dom row).
Proof.
  cbv zeta.
  assert (Hins : forall (c col : string) (v : cell) (m : gmap string cell),
            c ∉ enrichment_columns -> col ∈ enrichment_columns ->
            <[col := v]> m !! c = m !! c).
  { intros c col v m Hc Hcol. apply lookup_insert_ne. by intros ->. }
  assert (Hdom : forall (col : string) (v : cell) (m : gmap string cell),
            is_Some (m !! col) -> dom (<[col := v]> m) = dom m).
  { intros col v m Hs. apply elem_of_dom in Hs. rewrite dom_insert_L. set_solver. }
  assert (H1 : "summary" ∈ enrichment_columns) by (by left).
  assert (H2 : "skills" ∈ enrichment_columns) by (right; by left).
  assert (H3 : "salary" ∈ enrichment_columns) by (do 2 right; by left).
  unfold try_body, mbind, Try_bind, try_bind, try_call, at_set.
  destruct (summarize_job idx row) as [p | e]; simpl; [| done].
  split.
  - intros c Hc.
    destruct (default (SkList []) (p_skills p)) as [l | v]; simpl.
    + destruct (Py.join ", " l); simpl; by rewrite ?Hins.
    + by rewrite !Hins.
  - intros Hall. apply Forall_cons in Hall as [Hs1 Hall].
    apply Forall_cons in Hall as [Hs2 Hall]. apply Forall_cons in Hall as [Hs3 _].
    assert (Hd1 : dom (<["summary" := CStr (default "" (p_summary p))]> row) = dom row)
      by (by apply Hdom).
    destruct (default (SkList []) (p_skills p)) as [l | v]; simpl.
    + destruct (Py.join ", " l); simpl; [| done].
      rewrite (Hdom "salary"); [| by rewrite !lookup_insert_ne].
      rewrite (Hdom "skills"); [exact Hd1 | by rewrite lookup_insert_ne].
    + rewrite (Hdom "salary"); [| by rewrite !lookup_insert_ne].
      rewrite (Hdom "skills"); [exact Hd1 | by rewrite lookup_insert_ne].
Qed.


Lemma process_jobs_lookup df i row :
  rows (ensure_enrichment_columns df) !! i = Some row ->
  rows (process_jobs summarize_job df).1 !! i =
    Some (if has_summary row then row
          else (try_body summarize_job i row row).1).
Proof.
  intros Hi. by rewrite process_jobs_rows, (iterrows_loop_lookup _ _ _ _ _ _ Hi).
Qed.

(** X16: a backfill pass, whatever the summarizer answers or raises,
    keeps the number and order of the rows and, of each row, every field
    but summary, skills and salary; its frame has the columns of the
    frame read and those three. *)
Theorem backfill_frame (df : DataFrame) :
  let out := process_jobs summarize_job df in
  (forall c : string, c ∈ columns out.1 <-> c ∈ columns df \/ c ∈ enrichment_columns) /\
  length (rows out.1) = length (rows df) /\
  forall (i : nat) (row : gmap string cell),
    rows df !! i = Some row ->
    exists row' : gmap string cell,
      rows out.1 !! i = Some row' /\
      forall c : string, c ∉ enrichment_columns -> row' !! c = row !! c.
Proof.
  cbv zeta.
  assert (Hlen : length (rows (ensure_enrichment_columns df)) = length (rows df)).
  { unfold ensure_enrichment_columns.
    repeat (case_bool_decide; unfold setitem; simpl; rewrite ?length_map); done. }
  assert (Hrow : forall i row, rows df !! i = Some row ->
            exists row0, rows (ensure_enrichment_columns df) !! i = Some row0 /\
              forall c, c ∉ enrichment_columns -> row0 !! c = row !! c).
  { intros i row Hi. unfold ensure_enrichment_columns.
    assert (Hstep : forall (col : string) (d : DataFrame) (r0 : gmap string cell),
              col ∈ enrichment_columns ->
              rows d !! i = Some r0 ->
              (forall c, c ∉ enrichment_columns -> r0 !! c = row !! c) ->
              exists r1,
                rows (if bool_decide (col ∉ columns d)
                      then setitem col (CStr "") d else d) !! i = Some r1 /\
                forall c, c ∉ enrichment_columns -> r1 !! c = row !! c).
    { intros col d r0 Hcol Hd Hr0. case_bool_decide; [| by exists r0].
      exists (<[col := CStr ""]> r0). unfold setitem. simpl.
      rewrite list_lookup_fmap, Hd. split; [done |].
      intros c Hc. rewrite lookup_insert_ne; [by apply Hr0 | by intros ->]. }
    destruct (Hstep "summary" df row) as (r1 & Hr1 & Hk1); [by left | done | done |].
    destruct (Hstep "skills" _ r1 ltac:(right; by left) Hr1 Hk1) as (r2 & Hr2 & Hk2).
    exact (Hstep "salary" _ r2 ltac:(do 2 right; by left) Hr2 Hk2). }
  split; [| split].
  - intros c. rewrite process_jobs_columns. apply ensure_enrichment_columns_columns.
  - by rewrite process_jobs_rows, iterrows_loop_length.
  - intros i row Hi. destruct (Hrow i row Hi) as (row0 & Hi0 & Hk0).
    eexists. split; [by apply process_jobs_lookup |].
    intros c Hc. destruct (has_summary row0); [by apply Hk0 |].
    destruct (try_body_frame i row0) as [Hf _]. rewrite Hf by done. by apply Hk0.
Qed.

(** X17: the frame a backfill pass writes is rectangular when the frame
    read is: every row carries exactly the columns of the frame, the
    three enrichment columns among them. *)
Theorem backfill_rectangular (df : DataFrame) :
  wf df ->
  wf (process_jobs summarize_job df).1 /\
  Forall (fun c => c ∈ columns (process_jobs summarize_job df).1) enrichment_columns.
Proof.
  intros Hwf. pose proof (ensure_enrichment_columns_wf df Hwf) as Hwf1.
  assert (Hcols : Forall (fun c => c ∈ columns (ensure_enrichment_columns df))
                    enrichment_columns).
  { apply Forall_forall. intros c Hc. apply ensure_enrichment_columns_columns. by right. }
  split; [| by rewrite process_jobs_columns].
  unfold wf. rewrite process_jobs_columns. apply Forall_forall. intros row' Hin.
  apply list_elem_of_lookup in Hin as [i Hi].
  destruct (lookup_lt_is_Some_2 (rows (ensure_enrichment_columns df)) i) as [row Hrow].
  { apply lookup_lt_Some in Hi.
    by rewrite process_jobs_rows, iterrows_loop_length in Hi. }
  rewrite (process_jobs_lookup df i row Hrow) in Hi. injection Hi as <-.
  assert (Hdom : dom row = list_to_set (columns (ensure_enrichment_columns df))).
  { unfold wf in Hwf1. rewrite Forall_forall in Hwf1. apply Hwf1.
    apply list_elem_of_lookup. by exists i. }
  destruct (has_summary row); [done |].
  destruct (try_body_frame i row) as [_ Hd]. rewrite Hd; [done |].
  eapply Forall_impl; [exact Hcols |]. intros c Hc. simpl.
  apply elem_of_dom. rewrite Hdom. by apply elem_of_list_to_set.
Qed.







(** X21: when the answer's skills list holds an element that is not a
    string, the pass leaves the row with the returned summary written and
    skills and salary as they were, and does not count it. *)
Theorem backfill_untyped_list
    (df : DataFrame) (i : nat) (row : gmap string cell) (p : Parsed)
    (l : list Py.scalar) :
  rows (ensure_enrichment_columns df) !! i = Some row ->
  has_summary row = false ->
  summarize_job i row = Py.Ok p ->
  p_skills p = Some (SkList l) ->
  ~ Forall is_str l ->
  rows (process_jobs summarize_job df).1 !! i
    = Some (<["summary" := CStr (default "" (p_summary p))]> row) /\
  forall (rest : list (gmap string cell)) (updated : nat),
    iterrows_loop summarize_job i (row :: rest) updated =
      (<["summary" := CStr (default "" (p_summary p))]> row
         :: (iterrows_loop summarize_job (S i) rest updated).1,
       (iterrows_loop summarize_job (S i) rest updated).2).
Proof.
  intros Hi Hs Hp Hl Hbad.
  pose proof (try_body_untyped_list summarize_job i row p l Hp Hl Hbad) as Hbody.
  split.
  - by rewrite (process_jobs_lookup df i row Hi), Hs, Hbody.
  - intros rest updated. simpl. rewrite Hs, Hbody.
    by destruct (iterrows_loop summarize_job (S i) rest updated).
Qed.

End BackfillExtras.



(* ===================================================================== *)
(** ** The extras on the sample data                                      *)
(* ===================================================================== *)

Lemma scan_confirmations_keys_witness :
  ledger Sample.two_rows /\
  exists inserted : list (gmap string cell),
    scan_confirmations Sample.parser Sample.batch Sample.two_rows =
      Py.Ok (mkDataFrame (columns Sample.two_rows) (rows Sample.two_rows ++ inserted)) /\
    length inserted <= 3.
Proof.
  split; [exact ledger_two_rows |].
  destruct (scan_confirmations_keys Sample.parser Sample.batch Sample.two_rows
              ledger_two_rows) as (inserted & Hrun & _ & Hlen).
  exists inserted. split; assumption.
Defined.

Lemma swapped_batch :
  [Sample.confirmation; Sample.undated] ≡ₚ [Sample.undated; Sample.confirmation].
Proof. apply perm_swap. Defined.

Lemma scan_confirmations_order_witness :
  ledger (load_jobs_df None) /\
  [Sample.confirmation; Sample.undated] ≡ₚ [Sample.undated; Sample.confirmation] /\
  exists df1 df2 : DataFrame,
    scan_confirmations Sample.parser [Sample.confirmation; Sample.undated]
      (load_jobs_df None) = Py.Ok df1 /\
    scan_confirmations Sample.parser [Sample.undated; Sample.confirmation]
      (load_jobs_df None) = Py.Ok df2 /\
    length (rows df1) = length (rows df2).
Proof.
  split; [exact ledger_no_file |]. split; [exact swapped_batch |].
  destruct (scan_confirmations_order Sample.parser _ _ (load_jobs_df None)
              ledger_no_file swapped_batch) as (df1 & df2 & H1 & H2 & _ & Hlen).
  exists df1, df2. repeat split; assumption.
Defined.

Lemma foreign_file_columns :
  "role_title" ∈ columns Sample2.foreign_file /\
  "applied_date" ∉ columns Sample2.foreign_file.
Proof.
  split; [do 2 right; left |].
  intros Hin. simpl in Hin.
  repeat (apply elem_of_cons in Hin as [Hin | Hin]; [discriminate |]).
  by apply elem_of_nil in Hin.
Defined.

Lemma scan_confirmations_missing_column_witness :
  "role_title" ∈ columns Sample2.foreign_file /\
  ("applied_date" ∉ columns Sample2.foreign_file) /\
  scan_confirmations Sample.parser [Sample.confirmation] Sample2.foreign_file
    = Py.Raise (Py.KeyError "applied_date").
Proof.
  split; [exact (proj1 foreign_file_columns) |].
  split; [exact (proj2 foreign_file_columns) |].
  exact (proj2 (proj2 (scan_confirmations_missing_column Sample.parser
                         Sample2.foreign_file Sample.confirmation []))
           (proj1 foreign_file_columns) (proj2 foreign_file_columns)).
Defined.

Lemma scan_rejections_frame_witness :
  ledger Sample.two_rows /\
  exists df' : DataFrame,
    scan_rejections Sample.parser Sample2.rejections Sample.two_rows = Py.Ok df' /\
    columns df' = columns Sample.two_rows /\
    2 <= length (rows df').
Proof.
  split; [exact ledger_two_rows |].
  destruct (scan_rejections_frame Sample.parser Sample2.rejections Sample.two_rows
              ledger_two_rows) as (df' & Hrun & Hcols & Hlen & _).
  exists df'. repeat split; assumption.
Defined.

Lemma scan_rejections_all_rejected_witness :
  ledger Sample.two_rows /\
  exists df' : DataFrame,
    scan_rejections Sample.parser Sample2.rejections Sample.two_rows = Py.Ok df' /\
    Forall (fun msg => all_rejected (subject_of msg) df') Sample2.rejections.
Proof.
  split; [exact ledger_two_rows |].
  exact (scan_rejections_all_rejected Sample.parser Sample2.rejections
           Sample.two_rows ledger_two_rows).
Defined.

Lemma scan_rejections_row_count_witness :
  ledger Sample.two_rows /\
  exists df' : DataFrame,
    scan_rejections Sample.parser Sample2.rejections Sample.two_rows = Py.Ok df' /\
    length (rows df') <= 2 + 3.
Proof.
  split; [exact ledger_two_rows |].
  destruct (scan_rejections_row_count Sample.parser Sample2.rejections
              Sample.two_rows ledger_two_rows) as (df' & Hrun & _ & Hlen).
  exists df'. split; assumption.
Defined.

(** Three rejections, two of them with the same subject that no row
    carried, add one row. *)
Example rejections_add_one_row :
  exists df' : DataFrame,
    scan_rejections Sample.parser Sample2.rejections Sample.two_rows = Py.Ok df' /\
    map (fun r : gmap string cell => (r !! "role_title", r !! "status")) (rows df') =
      [(Some (CStr "Software Engineer"), Some (CStr "Rejected"));
       (Some (CStr "Data Analyst"), Some (CStr "Applied"));
       (Some (CStr "Product Manager"), Some (CStr "Rejected"))].
Proof. eexists. split; vm_compute; reflexivity. Qed.

Lemma rejections_not_empty : Sample2.rejections <> [].
Proof. discriminate. Defined.

Lemma scan_rejections_rerun_witness :
  ledger Sample.two_rows /\
  Sample2.rejections <> [] /\
  exists once twice : DataFrame,
    scan_rejections Sample.parser Sample2.rejections Sample.two_rows = Py.Ok once /\
    scan_rejections Sample.parser Sample2.rejections once = Py.Ok twice /\
    twice <> once /\
    length (rows twice) = length (rows once).
Proof.
  split; [exact ledger_two_rows |]. split; [exact rejections_not_empty |].
  destruct (scan_rejections_rerun Sample.parser Sample2.rejections Sample.two_rows
              ledger_two_rows rejections_not_empty)
    as (once & twice & H1 & H2 & _ & Hne & Hlen & _).
  exists once, twice. repeat split; assumption.
Defined.

Lemma main_saves_ledger_witness :
  (forall csv, Some Sample.old_file = Some csv -> wf csv) /\
  exists df : DataFrame,
    GmailSyncCli.main Sample.parser GmailSyncCli.ScanAll (Some Sample.old_file)
      Sample.batch Sample2.rejections = Py.Ok df /\
    ledger df.
Proof.
  split; [exact wf_old_file |].
  destruct (main_saves_ledger Sample.parser GmailSyncCli.ScanAll
              (Some Sample.old_file) Sample.batch Sample2.rejections wf_old_file)
    as (df & Hrun & Hl & _).
  exists df. split; assumption.
Defined.

Lemma no_file_wf : forall csv : DataFrame, None = Some csv -> wf csv.
Proof. intros csv Heq. discriminate Heq. Defined.

Lemma rejection_of_confirmation :
  Forall (fun msg => subject_of msg ∈ map subject_of [Sample.confirmation])
    [Sample.rejection].
Proof. constructor; [| constructor]. left. Defined.

Lemma main_scan_all_matches_witness :
  (forall csv : DataFrame, None = Some csv -> wf csv) /\
  Forall (fun msg => subject_of msg ∈ map subject_of [Sample.confirmation])
    [Sample.rejection] /\
  exists df1 df2 : DataFrame,
    GmailSyncCli.main Sample.parser GmailSyncCli.ScanConfirmations None
      [Sample.confirmation] [Sample.rejection] = Py.Ok df1 /\
    GmailSyncCli.main Sample.parser GmailSyncCli.ScanAll None
      [Sample.confirmation] [Sample.rejection] = Py.Ok df2 /\
    length (rows df2) = length (rows df1).
Proof.
  split; [exact no_file_wf |]. split; [exact rejection_of_confirmation |].
  destruct (main_scan_all_matches Sample.parser None [Sample.confirmation]
              [Sample.rejection] no_file_wf rejection_of_confirmation)
    as (df1 & df2 & H1 & H2 & Hlen & _).
  exists df1, df2. repeat split; assumption.
Defined.

Lemma backfill_frame_witness :
  rows Sample.three_rows !! 0 = Some Sample.first_row /\
  exists row' : gmap string cell,
    rows (process_jobs Sample.summarizer Sample.three_rows).1 !! 0 = Some row' /\
    row' !! "job_text" = Sample.first_row !! "job_text".
Proof.
  split; [reflexivity |].
  destruct (backfill_frame Sample.summarizer Sample.three_rows) as (_ & _ & Hrows).
  destruct (Hrows 0 Sample.first_row eq_refl) as (row' & Hrow & Hkeep).
  exists row'. split; [exact Hrow |]. apply Hkeep.
  intros Hin. unfold enrichment_columns in Hin.
  repeat (apply elem_of_cons in Hin as [Hin | Hin]; [discriminate |]).
  by apply elem_of_nil in Hin.
Defined.

Lemma wf_three_rows : wf Sample.three_rows.
Proof. unfold wf. repeat constructor; vm_compute; reflexivity. Defined.

Lemma backfill_rectangular_witness :
  wf Sample.three_rows /\
  wf (process_jobs Sample.summarizer Sample.three_rows).1.
Proof.
  split; [exact wf_three_rows |].
  exact (proj1 (backfill_rectangular Sample.summarizer Sample.three_rows wf_three_rows)).
Defined.






Lemma number_in_list : ~ Forall is_str [Py.SStr "SQL"; Py.SInt 3].
Proof.
  intros Hall. apply Forall_cons in Hall as [_ Hall].
  apply Forall_cons in Hall as [Hint _]. exact Hint.
Defined.

Lemma backfill_untyped_list_witness :
  rows (ensure_enrichment_columns Sample2.late_frame) !! 2 = Some Sample.second_row /\
  ~ Forall is_str [Py.SStr "SQL"; Py.SInt 3] /\
  rows (process_jobs Sample.summarizer Sample2.late_frame).1 !! 2
    = Some (<["summary" := CStr "Analyses sales data."]> Sample.second_row).
Proof.
  split; [reflexivity |]. split; [exact number_in_list |].
  exact (proj1 (backfill_untyped_list Sample.summarizer Sample2.late_frame 2
                  Sample.second_row _ _ eq_refl eq_refl eq_refl eq_refl
                  number_in_list)).
Defined.
